(** * Exam preparation question generator: prompt construction, response
    extraction and session state

    A shallow embedding of [main.py].  Python strings are Rocq strings
    (sequences of characters with codes below 256), Python integers are [Z]
    (rendered in decimal up to the interpreter's limit of 4300 digits),
    exceptions are an explicit [result] type, and the two lists owned by an
    [ExamQuestionGenerator] are threaded through every method as state.
    The [json] and [ollama] libraries and the [rich] console are
    collaborators of the program: the decoder, the chat call and the console
    are parameters of the definitions that use them. *)

From Stdlib Require Import ZArith List String Ascii Bool Lia DecimalString.
Import ListNotations.

Local Open Scope string_scope.
Local Open Scope Z_scope.

(** ** Characters and string literals *)

(** The double quote, U+0022. *)
Definition dquote : ascii := ascii_of_nat 34.

(** The line feed, U+000A. *)
Definition newline : ascii := ascii_of_nat 10.

(** One-character string. *)
Definition chr (c : ascii) : string := String c EmptyString.

(** A literal of the source in which every double quote is written as a
    backquote; no literal of [main.py] holds a backquote. *)
Fixpoint lit (s : string) : string :=
  match s with
  | EmptyString => EmptyString
  | String c s' => String (if Ascii.eqb c "`" then dquote else c) (lit s')
  end.

(** ** Python values the program handles *)

Module Py.

(** Exceptions, by class.  [Exception] stands for any class the program
    does not itself provoke (a network error of the chat call, an
    end-of-file on input, a rendering error). *)
Inductive exn : Type :=
| AttributeError
| TypeError
| JSONDecodeError
| ValueError
| Exception (what : string).

(** The outcome of evaluating an expression: a value, or a raised
    exception. *)
Inductive result (A : Type) : Type :=
| Ok (a : A)
| Raise (e : exn).

Arguments Ok {A} a.
Arguments Raise {A} e.

Definition bind {A B : Type} (r : result A) (k : A -> result B) : result B :=
  match r with
  | Ok a => k a
  | Raise e => Raise e
  end.

(** [try: body except: handler] with a bare [except]: every exception of
    the body is caught. *)
Definition try_except {A : Type} (body : result A) (handler : exn -> result A)
  : result A :=
  match body with
  | Ok a => Ok a
  | Raise e => handler e
  end.

(** [len(s)]. *)
Definition len (s : string) : Z := Z.of_nat (String.length s).

(** Lowest index of the character [c] in [s], if any. *)
Fixpoint index_of (c : ascii) (s : string) : option nat :=
  match s with
  | EmptyString => None
  | String a s' =>
      if Ascii.eqb a c then Some O
      else match index_of c s' with
           | Some i => Some (S i)
           | None => None
           end
  end.

(** Highest index of the character [c] in [s], if any. *)
Fixpoint rindex_of (c : ascii) (s : string) : option nat :=
  match s with
  | EmptyString => None
  | String a s' =>
      match rindex_of c s' with
      | Some i => Some (S i)
      | None => if Ascii.eqb a c then Some O else None
      end
  end.

(** [s.find(c)] for a one-character argument: the lowest index, or -1. *)
Definition find (c : ascii) (s : string) : Z :=
  match index_of c s with
  | Some i => Z.of_nat i
  | None => -1
  end.

(** [s.rfind(c)] for a one-character argument: the highest index, or -1. *)
Definition rfind (c : ascii) (s : string) : Z :=
  match rindex_of c s with
  | Some i => Z.of_nat i
  | None => -1
  end.

(** A slice bound as Python normalises it: a negative bound counts from the
    end, and the result is clamped to [0, len]. *)
Definition clamp (n i : Z) : Z :=
  if i <? 0 then Z.max 0 (i + n) else Z.min i n.

(** [s[start:stop]]. *)
Definition slice (s : string) (start stop : Z) : string :=
  let lo := clamp (len s) start in
  let hi := clamp (len s) stop in
  substring (Z.to_nat lo) (Z.to_nat (hi - lo)) s.

(** [sep.join(parts)]. *)
Fixpoint join (sep : string) (parts : list string) : string :=
  match parts with
  | [] => EmptyString
  | [p] => p
  | p :: rest => p ++ sep ++ join sep rest
  end.

(** The decimal rendering of an integer. *)
Definition decimal (n : Z) : string := NilZero.string_of_int (Z.to_int n).

(** The most digits the interpreter converts between [int] and [str]
    ([sys.int_info.default_max_str_digits] of CPython 3.11). *)
Definition max_str_digits : nat := 4300.

(** [str(n)] for an integer, which is also how an f-string formats it: the
    decimal rendering, or [ValueError] when the integer, sign apart, has more
    digits than the limit. *)
Definition str_of_int (n : Z) : result string :=
  if (String.length (decimal (Z.abs n)) <=? max_str_digits)%nat
  then Ok (decimal n)
  else Raise ValueError.

(** [c.isspace()] on the characters below 256. *)
Definition isspace (c : ascii) : bool :=
  let n := nat_of_ascii c in
  ((9 <=? n) && (n <=? 13) || (28 <=? n) && (n <=? 32)
   || (n =? 133) || (n =? 160))%nat.

Fixpoint lstrip (s : string) : string :=
  match s with
  | EmptyString => EmptyString
  | String c s' => if isspace c then lstrip s' else s
  end.

Fixpoint rstrip (s : string) : string :=
  match s with
  | EmptyString => EmptyString
  | String c s' =>
      match rstrip s' with
      | EmptyString => if isspace c then EmptyString else chr c
      | t => String c t
      end
  end.

(** [s.strip()]. *)
Definition strip (s : string) : string := rstrip (lstrip s).

(** [s.split(c)] for a one-character separator. *)
Fixpoint split (c : ascii) (s : string) : list string :=
  match s with
  | EmptyString => [EmptyString]
  | String a s' =>
      if Ascii.eqb a c then EmptyString :: split c s'
      else match split c s' with
           | [] => [chr a]
           | w :: ws => String a w :: ws
           end
  end.

End Py.

Import Py.

Declare Scope py_scope.
Delimit Scope py_scope with py.
Notation "x <- e ;; k" := (Py.bind e (fun x => k))
  (at level 61, e at next level, right associativity) : py_scope.

(** ** JSON values

    What [json.loads] returns and what the generator stores: [None], a
    [bool], an [int], a [float], a [str], a [list] or a [dict].  The program
    never inspects a float, so their type [F] is left open.  A dict is the
    list of its items in insertion order. *)
#[local] Set Warnings "-register-all".

Inductive json (F : Type) : Type :=
| JNull
| JBool (b : bool)
| JInt (n : Z)
| JFloat (x : F)
| JStr (s : string)
| JList (items : list (json F))
| JDict (fields : list (string * json F)).

Arguments JNull {F}.
Arguments JBool {F} b.
Arguments JInt {F} n.
Arguments JFloat {F} x.
Arguments JStr {F} s.
Arguments JList {F} items.
Arguments JDict {F} fields.

Section Values.

Context {F : Type}.

(** Lookup of a key among the items of a dict. *)
Fixpoint lookup (key : string) (fields : list (string * json F))
  : option (json F) :=
  match fields with
  | [] => None
  | (k, v) :: rest => if String.eqb k key then Some v else lookup key rest
  end.

(** [d[key] = v]: a present key keeps its place, a new one goes last. *)
Fixpoint store (key : string) (v : json F) (fields : list (string * json F))
  : list (string * json F) :=
  match fields with
  | [] => [(key, v)]
  | (k, w) :: rest =>
      if String.eqb k key then (k, v) :: rest else (k, w) :: store key v rest
  end.

(** [o.get(key, default)]: only a dict has the method. *)
Definition get (o : json F) (key : string) (default : json F)
  : result (json F) :=
  match o with
  | JDict fields =>
      match lookup key fields with
      | Some v => Ok v
      | None => Ok default
      end
  | _ => Raise AttributeError
  end.

(** The characters of a string, each a string of length one. *)
Fixpoint chars (s : string) : list (json F) :=
  match s with
  | EmptyString => []
  | String c s' => JStr (chr c) :: chars s'
  end.

(** [list(o)]: what iterating over [o] yields.  A list yields its items, a
    string its characters, a dict its keys; nothing else is iterable. *)
Definition iterate (o : json F) : result (list (json F)) :=
  match o with
  | JList items => Ok items
  | JStr s => Ok (chars s)
  | JDict fields => Ok (map (fun kv => JStr (fst kv)) fields)
  | _ => Raise TypeError
  end.

(** [o[:n]]: a string and a list can be sliced. *)
Definition head_slice (n : nat) (o : json F) : result (json F) :=
  match o with
  | JStr s => Ok (JStr (slice s 0 (Z.of_nat n)))
  | JList items => Ok (JList (firstn n items))
  | _ => Raise TypeError
  end.

(** The object returned when no JSON could be extracted. *)
Definition fallback (content : string) : json F :=
  JDict [("raw_response", JStr content)].

End Values.

(** ** [json.dumps] on strings and lists of strings *)

Module Dumps.

Definition hex_digit (n : nat) : ascii :=
  nth n (list_ascii_of_string "0123456789abcdef") "0"%char.

(** The [\u00xx] escape of a character below 256. *)
Definition u_escape (n : nat) : string :=
  "\u00" ++ chr (hex_digit (n / 16)) ++ chr (hex_digit (n mod 16)).

(** How [ensure_ascii] output renders one character: the quote and the
    backslash are escaped, and so is every character outside the range
    from space to tilde. *)
Definition escape (c : ascii) : string :=
  let n := nat_of_ascii c in
  if Ascii.eqb c dquote then "\" ++ chr dquote
  else if Ascii.eqb c "\" then "\\"
  else if (n =? 10)%nat then "\n"
  else if (n =? 13)%nat then "\r"
  else if (n =? 9)%nat then "\t"
  else if (n =? 8)%nat then "\b"
  else if (n =? 12)%nat then "\f"
  else if ((n <? 32) || (126 <? n))%nat then u_escape n
  else chr c.

Fixpoint escape_all (s : string) : string :=
  match s with
  | EmptyString => EmptyString
  | String c s' => escape c ++ escape_all s'
  end.

(** [json.dumps(s)] for a string. *)
Definition dumps_str (s : string) : string :=
  chr dquote ++ escape_all s ++ chr dquote.

(** [json.dumps(topics)] for a list of strings. *)
Definition dumps_strs (topics : list string) : string :=
  "[" ++ join ", " (map dumps_str topics) ++ "]".

End Dumps.

(** ** Prompt construction

    Each method builds its prompt from an f-string; the definitions below
    are those f-strings, line by line.  An f-string that formats an integer
    raises what [str] raises on it. *)

(** The lines of a triple-quoted literal, joined by line feeds. *)
Definition unlines : list string -> string := join (chr newline).

Definition generate_questions_prompt
  (content : string) (num_questions : Z) (question_type difficulty : string)
  : result string :=
  (number <- str_of_int num_questions ;;
   Ok (unlines
    [ "Generate exam practice questions from this content.";
      EmptyString;
      "Content:";
      content;
      EmptyString;
      "Number of Questions: " ++ number;
      "Question Type: " ++ question_type;
      "Difficulty: " ++ difficulty;
      EmptyString;
      "Return JSON:";
      "{";
      lit "    `topic`: `main topic covered`,";
      lit "    `difficulty`: `" ++ difficulty ++ lit "`,";
      lit "    `questions`: [";
      "        {";
      lit "            `id`: 1,";
      lit "            `type`: `question type`,";
      lit "            `bloom_level`: `cognitive level`,";
      lit "            `question`: `question text`,";
      lit "            `options`: [`A) option`, `B) option`, `C) option`, `D) option`],";
      lit "            `correct_answer`: `A`,";
      lit "            `explanation`: `why this is correct`,";
      lit "            `common_mistakes`: [`wrong answers students pick`],";
      lit "            `hint`: `helpful hint`,";
      lit "            `points`: 10";
      "        }";
      "    ],";
      lit "    `total_points`: 50,";
      lit "    `time_estimate`: `minutes to complete`,";
      lit "    `study_tips`: [`tips based on question topics`]";
      "}" ]))%py.

Definition generate_by_bloom_prompt (topic bloom_level : string) : string :=
  unlines
    [ "Generate questions at " ++ bloom_level ++ " cognitive level for this topic.";
      EmptyString;
      "Topic: " ++ topic;
      "Bloom's Level: " ++ bloom_level;
      EmptyString;
      "Return JSON:";
      "{";
      lit "    `topic`: `" ++ topic ++ lit "`,";
      lit "    `bloom_level`: `" ++ bloom_level ++ lit "`,";
      lit "    `level_description`: `what this level tests`,";
      lit "    `action_verbs`: [`verbs used at this level`],";
      lit "    `questions`: [";
      "        {";
      lit "            `id`: 1,";
      lit "            `question`: `question testing " ++ bloom_level ++ lit "`,";
      lit "            `type`: `appropriate question type`,";
      lit "            `answer_key`: `expected answer`,";
      lit "            `grading_rubric`: `how to evaluate`,";
      lit "            `sample_excellent_answer`: `what a great answer looks like`";
      "        }";
      "    ],";
      lit "    `progression`: {";
      lit "        `prerequisite_level`: `level before this`,";
      lit "        `next_level`: `level after this`,";
      lit "        `how_to_upgrade`: `how to make question harder`";
      "    }";
      "}" ].

Definition create_practice_exam_prompt
  (topics : list string) (duration_minutes : Z) : result string :=
  (duration <- str_of_int duration_minutes ;;
   Ok (unlines
    [ "Create a practice exam.";
      EmptyString;
      "Topics: " ++ Dumps.dumps_strs topics;
      "Duration: " ++ duration ++ " minutes";
      EmptyString;
      "Return JSON:";
      "{";
      lit "    `exam_info`: {";
      lit "        `title`: `Practice Exam`,";
      lit "        `topics_covered`: " ++ Dumps.dumps_strs topics ++ ",";
      lit "        `total_time`: `" ++ duration ++ lit " minutes`,";
      lit "        `total_points`: 100";
      "    },";
      lit "    `instructions`: `exam instructions`,";
      lit "    `sections`: [";
      "        {";
      lit "            `section`: `Section A: Multiple Choice`,";
      lit "            `points`: 30,";
      lit "            `time_allocation`: `15 minutes`,";
      lit "            `questions`: [";
      "                {";
      lit "                    `number`: 1,";
      lit "                    `question`: `question text`,";
      lit "                    `options`: [`A)`, `B)`, `C)`, `D)`],";
      lit "                    `points`: 5,";
      lit "                    `answer`: `A`,";
      lit "                    `topic`: `which topic`";
      "                }";
      "            ]";
      "        }";
      "    ],";
      lit "    `answer_key`: [";
      "        {";
      lit "            `question`: 1,";
      lit "            `answer`: `A`,";
      lit "            `explanation`: `why`";
      "        }";
      "    ],";
      lit "    `grading_scale`: {";
      lit "        `A`: `90-100`,";
      lit "        `B`: `80-89`,";
      lit "        `C`: `70-79`,";
      lit "        `D`: `60-69`,";
      lit "        `F`: `below 60`";
      "    },";
      lit "    `study_recommendations`: [`based on exam content`]";
      "}" ]))%py.

Definition generate_flashcards_prompt (content : string) (num_cards : Z)
  : result string :=
  (number <- str_of_int num_cards ;;
   Ok (unlines
    [ "Generate study flashcards from this content.";
      EmptyString;
      "Content:";
      content;
      EmptyString;
      "Number of Cards: " ++ number;
      EmptyString;
      "Return JSON:";
      "{";
      lit "    `topic`: `main topic`,";
      lit "    `flashcards`: [";
      "        {";
      lit "            `id`: 1,";
      lit "            `front`: `question/term/prompt`,";
      lit "            `back`: `answer/definition/explanation`,";
      lit "            `category`: `subtopic`,";
      lit "            `difficulty`: `easy/medium/hard`,";
      lit "            `memory_tip`: `how to remember`";
      "        }";
      "    ],";
      lit "    `study_suggestions`: {";
      lit "        `spaced_repetition`: `recommended schedule`,";
      lit "        `grouping`: `how to organize cards`,";
      lit "        `review_order`: `suggested sequence`";
      "    }";
      "}" ]))%py.

Definition check_answer_prompt
  (question student_answer correct_answer : string) : string :=
  unlines
    [ "Evaluate this student answer.";
      EmptyString;
      "Question: " ++ question;
      "Student's Answer: " ++ student_answer;
      "Expected Answer: " ++ correct_answer;
      EmptyString;
      "Return JSON:";
      "{";
      lit "    `question`: `" ++ question ++ lit "`,";
      lit "    `student_answer`: `" ++ student_answer ++ lit "`,";
      lit "    `correct_answer`: `" ++ correct_answer ++ lit "`,";
      lit "    `evaluation`: {";
      lit "        `is_correct`: true,";
      lit "        `score`: 85,";
      lit "        `max_score`: 100";
      "    },";
      lit "    `feedback`: {";
      lit "        `strengths`: [`what's good`],";
      lit "        `weaknesses`: [`what's missing`],";
      lit "        `misconceptions`: [`any misunderstandings`],";
      lit "        `specific_corrections`: [`what to fix`]";
      "    },";
      lit "    `improved_answer`: `how to write a better answer`,";
      lit "    `related_concepts`: [`concepts to review`],";
      lit "    `encouragement`: `motivational feedback`";
      "}" ].

(** ** Response extraction *)

Section Extractor.

Context {F : Type}.

(** [json.loads]: the decoded value, or the exception it raised. *)
Variable json_loads : string -> result (json F).

Local Open Scope py_scope.

(** [ExamQuestionGenerator._parse_json].  The body of the [try] either
    returns a value ([Some]) or falls through ([None]); whatever it raises
    is caught, and control reaches the final [return]. *)
Definition _parse_json (content : string) : result (json F) :=
  returned <-
    try_except
      (let start := find "{" content in
       let end_ := rfind "}" content + 1 in
       if negb (start =? -1) && (end_ >? start)
       then v <- json_loads (slice content start end_) ;; Ok (Some v)
       else Ok None)
      (fun _ => Ok None) ;;
  match returned with
  | Some v => Ok v
  | None => Ok (fallback content)
  end.

End Extractor.

(** ** The generator and its methods *)

(** The attributes of an [ExamQuestionGenerator]. *)
Record ExamQuestionGenerator (F : Type) : Type := {
  model : string;
  question_bank : list (json F);
  quiz_history : list (json F)
}.

Arguments model {F} _.
Arguments question_bank {F} _.
Arguments quiz_history {F} _.

(** [ExamQuestionGenerator.__init__]. *)
Definition __init__ {F : Type} (model : string) : ExamQuestionGenerator F :=
  {| model := model; question_bank := []; quiz_history := [] |}.

(** A method: from the object before the call to the outcome of the call
    and the object after it.  What a method changed before it raised
    stays changed. *)
Definition method (F A : Type) : Type :=
  ExamQuestionGenerator F -> result A * ExamQuestionGenerator F.

Definition ret {F A : Type} (a : A) : method F A := fun self => (Ok a, self).

Definition then_ {F A B : Type} (m : method F A) (k : A -> method F B)
  : method F B :=
  fun self =>
    match m self with
    | (Ok a, self') => k a self'
    | (Raise e, self') => (Raise e, self')
    end.

(** An expression that does not touch the object. *)
Definition eval {F A : Type} (r : result A) : method F A :=
  fun self => (r, self).

(** The object itself. *)
Definition this {F : Type} : method F (ExamQuestionGenerator F) :=
  fun self => (Ok self, self).

Declare Scope method_scope.
Delimit Scope method_scope with method.
Notation "x <- e ;; k" := (then_ e (fun x => k))
  (at level 61, e at next level, right associativity) : method_scope.

Section Methods.

Context {F : Type}.

Variable json_loads : string -> result (json F).

(** [ollama.chat(model=..., messages=[{"role": "user", "content": prompt}])
    ['message']['content']]: the reply to one user message, or the
    exception raised on the way. *)
Variable chat : string -> string -> result string.

Local Open Scope method_scope.

(** The chat call of a method, made with the model of the object. *)
Definition ask (prompt : string) : method F string :=
  fun self => (chat (model self) prompt, self).

(** [self.question_bank.extend(o)]. *)
Definition extend_question_bank (o : json F) : method F unit :=
  fun self =>
    match iterate o with
    | Ok items =>
        (Ok tt,
         {| model := model self;
            question_bank := question_bank self ++ items;
            quiz_history := quiz_history self |})
    | Raise e => (Raise e, self)
    end.

(** [self.quiz_history.append(o)]. *)
Definition append_quiz_history (o : json F) : method F unit :=
  fun self =>
    (Ok tt,
     {| model := model self;
        question_bank := question_bank self;
        quiz_history := quiz_history self ++ [o] |}).

Definition generate_questions
  (content : string) (num_questions : Z) (question_type difficulty : string)
  : method F (json F) :=
  prompt <-
    eval (generate_questions_prompt content num_questions question_type
            difficulty) ;;
  response <- ask prompt ;;
  result <- eval (_parse_json json_loads response) ;;
  questions <- eval (get result "questions" (JList [])) ;;
  _ <- extend_question_bank questions ;;
  ret result.

Definition generate_by_bloom (topic bloom_level : string)
  : method F (json F) :=
  response <- ask (generate_by_bloom_prompt topic bloom_level) ;;
  eval (_parse_json json_loads response).

Definition create_practice_exam (topics : list string) (duration_minutes : Z)
  : method F (json F) :=
  prompt <- eval (create_practice_exam_prompt topics duration_minutes) ;;
  response <- ask prompt ;;
  result <- eval (_parse_json json_loads response) ;;
  _ <- append_quiz_history result ;;
  ret result.

Definition generate_flashcards (content : string) (num_cards : Z)
  : method F (json F) :=
  prompt <- eval (generate_flashcards_prompt content num_cards) ;;
  response <- ask prompt ;;
  eval (_parse_json json_loads response).

Definition check_answer (question student_answer correct_answer : string)
  : method F (json F) :=
  response <-
    ask (check_answer_prompt question student_answer correct_answer) ;;
  eval (_parse_json json_loads response).

End Methods.

(** ** The menu loop *)

(** What [main] asks the console to show. *)
Inductive display (F : Type) : Type :=
| Banner
| Menu
| BankCount (n : nat)
| Goodbye
| BankEntry (i : nat) (text : json F)
| EmptyBank
| Notice
| Panel (result : json F)
| Separator.

Arguments Banner {F}.
Arguments Menu {F}.
Arguments BankCount {F} n.
Arguments Goodbye {F}.
Arguments BankEntry {F} i text.
Arguments EmptyBank {F}.
Arguments Notice {F}.
Arguments Panel {F} result.
Arguments Separator {F}.

(** What happens around the program during one pass through the loop: the
    choice [Prompt.ask] returns at the menu, the lines pasted before the
    [EOF] line, what [Prompt.ask] and [IntPrompt.ask] return for each of
    their labels, and the chat service as it answers during the pass.  A
    pass uses what its branch asks for. *)
Record turn : Type := {
  choice : string;
  pasted : list string;
  answer : string -> string;
  int_answer : string -> Z;
  service : string -> string -> result string
}.

(** How a pass through the loop body ends. *)
Inductive control : Type :=
| Continue
| Break.

Section Main.

Context {F : Type}.

Variable json_loads : string -> result (json F).

(** [console.print] and [display_menu]: the console shows something, or
    raises. *)
Variable console : display F -> result unit.

Local Open Scope method_scope.

(** [l[-5:]]. *)
Definition last_five {A : Type} (l : list A) : list A :=
  skipn (List.length l - 5)%nat l.

(** The [for] loop of the "View Bank" choice, numbering from [i]. *)
Fixpoint print_entries (i : nat) (entries : list (json F)) : result unit :=
  match entries with
  | [] => Ok tt
  | q :: rest =>
      (text <- get q "question" (JStr "N/A") ;;
       shown <- head_slice 60 text ;;
       _ <- console (BankEntry i shown) ;;
       print_entries (S i) rest)%py
  end.

Definition view_bank : method F unit :=
  self <- this ;;
  match question_bank self with
  | [] => eval (console EmptyBank)
  | _ => eval (print_entries 1 (last_five (question_bank self)))
  end.

(** The [if] and [elif] branches under [console.status]: the answers are
    asked for, the method is called and its result is shown.  No branch is
    taken for a choice that is none of [1] to [5]. *)
Definition selected (t : turn) : method F unit :=
  if String.eqb (choice t) "1" then
    _ <- eval (console Notice) ;;
    result <-
      generate_questions json_loads (service t)
        (join (chr newline) (pasted t))
        (int_answer t "Number of questions")
        (answer t "Question type") (answer t "Difficulty") ;;
    eval (console (Panel result))
  else if String.eqb (choice t) "2" then
    _ <- eval (console Notice) ;;
    result <-
      generate_by_bloom json_loads (service t)
        (answer t "Topic") (answer t "Bloom's level") ;;
    eval (console (Panel result))
  else if String.eqb (choice t) "3" then
    result <-
      create_practice_exam json_loads (service t)
        (map strip (split "," (answer t "Topics (comma-separated)")))
        (int_answer t "Duration (minutes)") ;;
    eval (console (Panel result))
  else if String.eqb (choice t) "4" then
    _ <- eval (console Notice) ;;
    result <-
      generate_flashcards json_loads (service t)
        (join (chr newline) (pasted t))
        (int_answer t "Number of flashcards") ;;
    eval (console (Panel result))
  else if String.eqb (choice t) "5" then
    result <-
      check_answer json_loads (service t)
        (answer t "Question") (answer t "Your answer")
        (answer t "Correct answer") ;;
    eval (console (Panel result))
  else ret tt.

(** One pass through the body of [while True]. *)
Definition body (t : turn) : method F control :=
  _ <- eval (console Menu) ;;
  self <- this ;;
  _ <- eval (console (BankCount (List.length (question_bank self)))) ;;
  if String.eqb (choice t) "0" then
    _ <- eval (console Goodbye) ;; ret Break
  else if String.eqb (choice t) "6" then
    _ <- view_bank ;; ret Continue
  else
    _ <- selected t ;;
    _ <- eval (console Separator) ;;
    ret Continue.

(** The loop of [main] over the turns typed so far: it stops at a [break]
    or at the first exception. *)
Fixpoint loop (turns : list turn) : method F control :=
  match turns with
  | [] => ret Continue
  | t :: rest =>
      c <- body t ;;
      match c with
      | Break => ret Break
      | Continue => loop rest
      end
  end.

Definition main (turns : list turn)
  : result control * ExamQuestionGenerator F :=
  (_ <- eval (console Banner) ;; loop turns) (__init__ "llama3.2").

End Main.

(** ** A reference decoder

    An executable model of [json.loads] with its default settings, used to
    run the extractor on concrete texts.  It follows the grammar of
    [json.decoder] and [json.scanner]; the conversion of a literal to a
    float is left as the parameter [float_of_str], a [\u] escape of a
    character above 255 is rejected (such a character is outside this model
    of strings), and nesting is bounded by the length of the text only. *)

Module Json.

Section Codec.

Context {F : Type}.

(** [float(literal)]. *)
Variable float_of_str : string -> F.

Local Open Scope py_scope.

(** The four characters [json.decoder.WHITESPACE] skips. *)
Definition is_ws (c : ascii) : bool :=
  let n := nat_of_ascii c in
  ((n =? 32) || (n =? 9) || (n =? 10) || (n =? 13))%nat.

Fixpoint skip_ws (s : string) : string :=
  match s with
  | EmptyString => EmptyString
  | String c s' => if is_ws c then skip_ws s' else s
  end.

(** [Some rest] when [s] is [p] followed by [rest]. *)
Fixpoint after (p s : string) : option string :=
  match p, s with
  | EmptyString, _ => Some s
  | String a p', String b s' => if Ascii.eqb a b then after p' s' else None
  | String _ _, EmptyString => None
  end.

Definition is_digit (c : ascii) : bool :=
  let n := nat_of_ascii c in ((48 <=? n) && (n <=? 57))%nat.

(** The value of a hexadecimal digit. *)
Definition hex_value (c : ascii) : option nat :=
  let n := nat_of_ascii c in
  if ((48 <=? n) && (n <=? 57))%nat then Some (n - 48)%nat
  else if ((97 <=? n) && (n <=? 102))%nat then Some (n - 87)%nat
  else if ((65 <=? n) && (n <=? 70))%nat then Some (n - 55)%nat
  else None.

Definition hex4 (a b c d : ascii) : option nat :=
  match hex_value a, hex_value b, hex_value c, hex_value d with
  | Some x, Some y, Some z, Some w =>
      Some (((x * 16 + y) * 16 + z) * 16 + w)%nat
  | _, _, _, _ => None
  end.

(** The character a one-letter escape stands for ([json.decoder.BACKSLASH]). *)
Definition unescape (c : ascii) : option ascii :=
  let n := nat_of_ascii c in
  if Ascii.eqb c dquote then Some dquote
  else if Ascii.eqb c "\" then Some "\"%char
  else if Ascii.eqb c "/" then Some "/"%char
  else if Ascii.eqb c "b" then Some (ascii_of_nat 8)
  else if Ascii.eqb c "f" then Some (ascii_of_nat 12)
  else if Ascii.eqb c "n" then Some (ascii_of_nat 10)
  else if Ascii.eqb c "r" then Some (ascii_of_nat 13)
  else if Ascii.eqb c "t" then Some (ascii_of_nat 9)
  else None.

Definition push (c : ascii) (p : string * string) : string * string :=
  (String c (fst p), snd p).

(** [scanstring] in strict mode, from just after the opening quote: the
    decoded string and the text after the closing quote. *)
Fixpoint scanstring (s : string) : result (string * string) :=
  match s with
  | EmptyString => Raise JSONDecodeError
  | String c s' =>
      if Ascii.eqb c dquote then Ok (EmptyString, s')
      else if Ascii.eqb c "\" then
        match s' with
        | String e s'' =>
            if Ascii.eqb e "u" then
              match s'' with
              | String h1 (String h2 (String h3 (String h4 rest))) =>
                  match hex4 h1 h2 h3 h4 with
                  | Some n =>
                      if (n <? 256)%nat
                      then p <- scanstring rest ;; Ok (push (ascii_of_nat n) p)
                      else Raise (Exception "character above 255")
                  | None => Raise JSONDecodeError
                  end
              | _ => Raise JSONDecodeError
              end
            else
              match unescape e with
              | Some c' => p <- scanstring s'' ;; Ok (push c' p)
              | None => Raise JSONDecodeError
              end
        | EmptyString => Raise JSONDecodeError
        end
      else if (nat_of_ascii c <? 32)%nat then Raise JSONDecodeError
      else p <- scanstring s' ;; Ok (push c p)
  end.

(** The longest prefix of digits, and the rest. *)
Fixpoint digits (s : string) : string * string :=
  match s with
  | EmptyString => (EmptyString, EmptyString)
  | String c s' =>
      if is_digit c then push c (digits s') else (EmptyString, s)
  end.

(** The integer part of a number: [0], or a digit from 1 to 9 followed by
    digits. *)
Definition int_part (s : string) : option (string * string) :=
  match s with
  | String c s' =>
      if Ascii.eqb c "0" then Some ("0", s')
      else if is_digit c then Some (push c (digits s'))
      else None
  | EmptyString => None
  end.

(** An optional [.] followed by at least one digit. *)
Definition frac_part (s : string) : string * string :=
  match s with
  | String c s' =>
      if Ascii.eqb c "." then
        match digits s' with
        | (EmptyString, _) => (EmptyString, s)
        | (ds, rest) => (String c ds, rest)
        end
      else (EmptyString, s)
  | EmptyString => (EmptyString, s)
  end.

(** An optional [e] or [E], an optional sign and at least one digit. *)
Definition exp_part (s : string) : string * string :=
  match s with
  | String c s' =>
      if Ascii.eqb c "e" || Ascii.eqb c "E" then
        let '(sign, s'') :=
          match s' with
          | String g t =>
              if Ascii.eqb g "+" || Ascii.eqb g "-" then (chr g, t)
              else (EmptyString, s')
          | EmptyString => (EmptyString, s')
          end in
        match digits s'' with
        | (EmptyString, _) => (EmptyString, s)
        | (ds, rest) => (String c (sign ++ ds), rest)
        end
      else (EmptyString, s)
  | EmptyString => (EmptyString, s)
  end.

(** [int(digits)] for a string of decimal digits. *)
Fixpoint nat_digits (acc : Z) (s : string) : Z :=
  match s with
  | EmptyString => acc
  | String c s' => nat_digits (10 * acc + Z.of_nat (nat_of_ascii c - 48)) s'
  end.

(** A match of [json.scanner.NUMBER_RE] at the start of [s]: an [int]
    when there is neither fraction nor exponent, a [float] otherwise. *)
Definition number (s : string) : option (json F * string) :=
  let '(sign, s1) :=
    match s with
    | String c s' => if Ascii.eqb c "-" then (chr c, s') else (EmptyString, s)
    | EmptyString => (EmptyString, s)
    end in
  match int_part s1 with
  | None => None
  | Some (ds, s2) =>
      let '(frac, s3) := frac_part s2 in
      let '(exp, s4) := exp_part s3 in
      match frac, exp with
      | EmptyString, EmptyString =>
          let n := nat_digits 0 ds in
          Some (JInt (match sign with EmptyString => n | _ => - n end), s4)
      | _, _ => Some (JFloat (float_of_str (sign ++ ds ++ frac ++ exp)), s4)
      end
  end.

(** What stands at the start of [s] when it is neither a string, an object
    nor an array: a literal, a number, or one of the three constants. *)
Definition scalar (s : string) : result (json F * string) :=
  match after "null" s with
  | Some r => Ok (JNull, r)
  | None =>
  match after "true" s with
  | Some r => Ok (JBool true, r)
  | None =>
  match after "false" s with
  | Some r => Ok (JBool false, r)
  | None =>
  match number s with
  | Some p => Ok p
  | None =>
  match after "NaN" s with
  | Some r => Ok (JFloat (float_of_str "nan"), r)
  | None =>
  match after "Infinity" s with
  | Some r => Ok (JFloat (float_of_str "inf"), r)
  | None =>
  match after "-Infinity" s with
  | Some r => Ok (JFloat (float_of_str "-inf"), r)
  | None => Raise JSONDecodeError
  end end end end end end end.

(** [scan_once], with [JSONObject] and [JSONArray]: the value at the start
    of [s] and the text after it.  [members] starts at the quote of a key
    and [elements] at a value; both carry what was read so far. *)
Fixpoint scan_once (fuel : nat) (s : string) {struct fuel}
  : result (json F * string) :=
  match fuel with
  | O => Raise (Exception "RecursionError")
  | S n =>
      match s with
      | EmptyString => Raise JSONDecodeError
      | String c rest =>
          if Ascii.eqb c dquote then
            p <- scanstring rest ;; Ok (JStr (fst p), snd p)
          else if Ascii.eqb c "{" then
            match skip_ws rest with
            | String c' rest' =>
                if Ascii.eqb c' "}" then Ok (JDict [], rest')
                else p <- members n [] (String c' rest') ;;
                     Ok (JDict (fst p), snd p)
            | EmptyString => Raise JSONDecodeError
            end
          else if Ascii.eqb c "[" then
            match skip_ws rest with
            | String c' rest' =>
                if Ascii.eqb c' "]" then Ok (JList [], rest')
                else p <- elements n [] (String c' rest') ;;
                     Ok (JList (fst p), snd p)
            | EmptyString => Raise JSONDecodeError
            end
          else scalar s
      end
  end
with members (fuel : nat) (acc : list (string * json F)) (s : string)
  {struct fuel} : result (list (string * json F) * string) :=
  match fuel with
  | O => Raise (Exception "RecursionError")
  | S n =>
      match s with
      | String c rest =>
          if Ascii.eqb c dquote then
            k <- scanstring rest ;;
            match skip_ws (snd k) with
            | String c1 r1 =>
                if Ascii.eqb c1 ":" then
                  v <- scan_once n (skip_ws r1) ;;
                  let acc' := store (fst k) (fst v) acc in
                  match skip_ws (snd v) with
                  | String c2 r2 =>
                      if Ascii.eqb c2 "}" then Ok (acc', r2)
                      else if Ascii.eqb c2 "," then members n acc' (skip_ws r2)
                      else Raise JSONDecodeError
                  | EmptyString => Raise JSONDecodeError
                  end
                else Raise JSONDecodeError
            | EmptyString => Raise JSONDecodeError
            end
          else Raise JSONDecodeError
      | EmptyString => Raise JSONDecodeError
      end
  end
with elements (fuel : nat) (acc : list (json F)) (s : string)
  {struct fuel} : result (list (json F) * string) :=
  match fuel with
  | O => Raise (Exception "RecursionError")
  | S n =>
      v <- scan_once n s ;;
      match skip_ws (snd v) with
      | String c r =>
          if Ascii.eqb c "]" then Ok ((acc ++ [fst v])%list, r)
          else if Ascii.eqb c "," then elements n (acc ++ [fst v])%list (skip_ws r)
          else Raise JSONDecodeError
      | EmptyString => Raise JSONDecodeError
      end
  end.

(** [json.loads(s)]: one value, with blanks allowed around it and nothing
    else after it. *)
Definition loads (s : string) : result (json F) :=
  p <- scan_once (S (String.length s)) (skip_ws s) ;;
  match skip_ws (snd p) with
  | EmptyString => Ok (fst p)
  | String _ _ => Raise JSONDecodeError
  end.

End Codec.

End Json.

(** ** Notions the properties are stated with *)

(** [i] is the index of the first occurrence of [c] in [s]. *)
Definition first_at (c : ascii) (s : string) (i : nat) : Prop :=
  String.get i s = Some c
  /\ forall k : nat, (k < i)%nat -> String.get k s <> Some c.

(** [j] is the index of the last occurrence of [c] in [s]. *)
Definition last_at (c : ascii) (s : string) (j : nat) : Prop :=
  String.get j s = Some c
  /\ forall k : nat, (j < k)%nat -> String.get k s <> Some c.

(** The substring of [s] from index [i] to index [j], both included. *)
Definition between (i j : nat) (s : string) : string :=
  substring i (j - i + 1) s.

(** [content] has a first opening brace, a last closing brace after it,
    and the text between them, braces included, decodes to [v]. *)
Definition extractable {F : Type} (json_loads : string -> result (json F))
  (content : string) (v : json F) : Prop :=
  exists i j : nat,
    first_at "{" content i /\ last_at "}" content j /\ (i < j)%nat
    /\ json_loads (between i j content) = Ok v.

(** [v] is a dict. *)
Definition is_dict {F : Type} (v : json F) : Prop :=
  exists fields, v = JDict fields.

(** A decoder that, like [json.loads], can only return a dict for a text
    whose first character is an opening brace. *)
Definition object_decoder {F : Type} (json_loads : string -> result (json F))
  : Prop :=
  forall s v,
    String.get 0 s = Some "{"%char -> json_loads s = Ok v -> is_dict v.

(** [x] occurs in [s] as a run of consecutive characters. *)
Definition infix (x s : string) : Prop :=
  exists a b : string, s = a ++ x ++ b.

(** The decision of [infix]: [x] is a prefix of [s] or occurs further on. *)
Fixpoint contains (x s : string) : bool :=
  String.prefix x s
  || match s with
     | EmptyString => false
     | String _ s' => contains x s'
     end.

(** [n] has, sign apart, no more digits than [str] renders. *)
Definition renderable (n : Z) : Prop :=
  (String.length (decimal (Z.abs n)) <= max_str_digits)%nat.

(** A character [json.dumps] writes as it is: from space to tilde, and
    neither the quote nor the backslash. *)
Definition plain_char (c : ascii) : bool :=
  let n := nat_of_ascii c in
  ((32 <=? n) && (n <=? 126))%nat
  && negb (Ascii.eqb c dquote) && negb (Ascii.eqb c "\").

Fixpoint plain (s : string) : bool :=
  match s with
  | EmptyString => true
  | String c s' => plain_char c && plain s'
  end.

(** [new] is [old] with entries added at the end. *)
Definition extends {A : Type} (old new : list A) : Prop :=
  exists added : list A, new = (old ++ added)%list.

(** Both lists of [after] extend those of [before]. *)
Definition grows {F : Type} (before after : ExamQuestionGenerator F) : Prop :=
  extends (question_bank before) (question_bank after)
  /\ extends (quiz_history before) (quiz_history after).

(** A method under which both lists of the object only grow. *)
Definition append_only {F A : Type} (m : method F A) : Prop :=
  forall self : ExamQuestionGenerator F, grows self (snd (m self)).

(** The object with [items] added to its question bank. *)
Definition with_questions {F : Type} (self : ExamQuestionGenerator F)
  (items : list (json F)) : ExamQuestionGenerator F :=
  {| model := model self;
     question_bank := question_bank self ++ items;
     quiz_history := quiz_history self |}.

(** ** Sample data *)

(** Floats kept as their literals: an instance of the float parameter. *)
Definition sample_loads : string -> result (json string) :=
  Json.loads (fun literal => literal).

(** A reply with text around a JSON object that holds two questions. *)
Definition two_questions_reply : string :=
  lit "Here you go: {`topic`: `sets`, `questions`: [{`id`: 1}, {`id`: 2}]} Good luck!".

(** A reply whose [questions] field is a string. *)
Definition string_questions_reply : string :=
  lit "{`questions`: `abc`}".

(** A topic with a double quote in it. *)
Definition quoted_topic : string := "x" ++ chr dquote ++ "y".

(** ** Typed input and what the loop can show *)

(** The loop that reads pasted content, as choices 1 and 4 run it: one
    [input()] per line, until a line that strips to [EOF].  The typed
    lines are [stdin]; [input()] raises [EOFError] when none is left.  The
    result is the list [lines], or the exception, with the input not yet
    read. *)
Fixpoint read_content (stdin : list string)
  : result (list string) * list string :=
  match stdin with
  | [] => (Raise (Exception "EOFError"), [])
  | line :: rest =>
      if String.eqb (strip line) "EOF" then (Ok [], rest)
      else match read_content rest with
           | (Ok lines, unread) => (Ok (line :: lines), unread)
           | (Raise e, unread) => (Raise e, unread)
           end
  end.


(** An entry of the bank the "View Bank" loop gets through: a dict whose
    [question] is missing, a string or a list. *)
Definition viewable {F : Type} (q : json F) : bool :=
  match q with
  | JDict fields =>
      match lookup "question" fields with
      | None => true
      | Some (JStr _) => true
      | Some (JList _) => true
      | Some _ => false
      end
  | _ => false
  end.

(** The choice of the pass is 1, "Generate Questions". *)
Definition is_choice1 (t : turn) : bool := String.eqb (choice t) "1".

(** The choice of the pass is 3, "Practice Exam". *)
Definition is_choice3 (t : turn) : bool := String.eqb (choice t) "3".


(** Two turns that differ at most in what the chat service answers for
    models other than [m]. *)
Definition same_for_model (m : string) (t t' : turn) : Prop :=
  choice t = choice t' /\ pasted t = pasted t' /\ answer t = answer t'
  /\ int_answer t = int_answer t'
  /\ forall prompt : string, service t m prompt = service t' m prompt.



(** A console that shows whatever it is asked to. *)
Definition working {F : Type} (console : display F -> result unit) : Prop :=
  forall d : display F, console d = Ok tt.

(** The console that shows everything, for the sample data. *)
Definition quiet_console : display string -> result unit := fun _ => Ok tt.

(** A pass with the choice [c], nothing pasted, every answer empty or zero,
    and a chat service that always gives the reply with two questions. *)
Definition sample_turn (c : string) : turn :=
  {| choice := c;
     pasted := [];
     answer := fun _ => EmptyString;
     int_answer := fun _ => 0;
     service := fun _ _ => Ok two_questions_reply |}.


(** The pass [sample_turn c] with a chat service that knows no other model
    than [llama3.2]. *)
Definition one_model_turn (c : string) : turn :=
  {| choice := c;
     pasted := [];
     answer := fun _ => EmptyString;
     int_answer := fun _ => 0;
     service := fun m _ =>
                  if String.eqb m "llama3.2" then Ok two_questions_reply
                  else Raise (Exception "model not found") |}.
(** * Properties *)

(** ** Searching and slicing strings *)

Lemma get_empty (k : nat) : String.get k EmptyString = None.
Proof. destruct k; reflexivity. Qed.

Lemma get_in_range (s : string) :
  forall (i : nat) (c : ascii),
    String.get i s = Some c -> (i < String.length s)%nat.
Proof.
  induction s as [|a s IH]; intros i c H.
  - rewrite get_empty in H. discriminate.
  - destruct i as [|i]; simpl in *.
    + lia.
    + apply IH in H. lia.
Qed.

Lemma index_of_none (c : ascii) (s : string) :
  index_of c s = None -> forall k : nat, String.get k s <> Some c.
Proof.
  induction s as [|a s IH]; simpl; intros H k.
  - discriminate.
  - destruct (Ascii.eqb a c) eqn:E; [discriminate|].
    destruct (index_of c s); [discriminate|].
    destruct k as [|k]; simpl.
    + intros X. inversion X; subst. rewrite Ascii.eqb_refl in E. discriminate.
    + apply IH. reflexivity.
Qed.

Lemma index_of_first (c : ascii) (s : string) :
  forall i : nat, index_of c s = Some i -> first_at c s i.
Proof.
  induction s as [|a s IH]; simpl; intros i H.
  - discriminate.
  - destruct (Ascii.eqb a c) eqn:E.
    + inversion H; subst. apply Ascii.eqb_eq in E. subst.
      split; [reflexivity | intros k Hk; lia].
    + destruct (index_of c s) as [n|]; inversion H; subst.
      destruct (IH n eq_refl) as [G1 G2].
      split; [exact G1|].
      intros [|k] Hk; simpl.
      * intros X. inversion X; subst. rewrite Ascii.eqb_refl in E.
        discriminate.
      * apply G2. lia.
Qed.

Lemma first_at_index_of (c : ascii) (s : string) :
  forall i : nat, first_at c s i -> index_of c s = Some i.
Proof.
  induction s as [|a s IH]; intros i [H1 H2].
  - rewrite get_empty in H1. discriminate.
  - destruct i as [|i]; simpl in *.
    + inversion H1; subst. rewrite Ascii.eqb_refl. reflexivity.
    + destruct (Ascii.eqb a c) eqn:E.
      * apply Ascii.eqb_eq in E. subst.
        exfalso. apply (H2 O); [lia | reflexivity].
      * rewrite (IH i); [reflexivity|].
        split; [exact H1|].
        intros k Hk. apply (H2 (S k)). lia.
Qed.

Lemma rindex_of_none (c : ascii) (s : string) :
  rindex_of c s = None -> forall k : nat, String.get k s <> Some c.
Proof.
  induction s as [|a s IH]; simpl; intros H k.
  - discriminate.
  - destruct (rindex_of c s); [discriminate|].
    destruct (Ascii.eqb a c) eqn:E; [discriminate|].
    destruct k as [|k]; simpl.
    + intros X. inversion X; subst. rewrite Ascii.eqb_refl in E. discriminate.
    + apply IH. reflexivity.
Qed.

Lemma rindex_of_last (c : ascii) (s : string) :
  forall j : nat, rindex_of c s = Some j -> last_at c s j.
Proof.
  induction s as [|a s IH]; simpl; intros j H.
  - discriminate.
  - destruct (rindex_of c s) as [n|] eqn:R.
    + inversion H; subst.
      destruct (IH n eq_refl) as [G1 G2].
      split; [exact G1|].
      intros [|k] Hk; [lia|]. simpl. apply G2. lia.
    + destruct (Ascii.eqb a c) eqn:E; inversion H; subst.
      apply Ascii.eqb_eq in E. subst.
      split; [reflexivity|].
      intros [|k] Hk; [lia|]. simpl. apply rindex_of_none. exact R.
Qed.

Lemma last_at_rindex_of (c : ascii) (s : string) :
  forall j : nat, last_at c s j -> rindex_of c s = Some j.
Proof.
  induction s as [|a s IH]; intros j [H1 H2].
  - rewrite get_empty in H1. discriminate.
  - destruct j as [|j]; simpl in *.
    + inversion H1; subst.
      destruct (rindex_of c s) as [n|] eqn:R.
      * exfalso. destruct (rindex_of_last _ _ _ R) as [G _].
        apply (H2 (S n)); [lia | exact G].
      * rewrite Ascii.eqb_refl. reflexivity.
    + rewrite (IH j); [reflexivity|].
      split; [exact H1|].
      intros k Hk. apply (H2 (S k)). lia.
Qed.

(** A slice between two indices of the string is the substring between
    them. *)
Lemma slice_between (s : string) (i j : nat) :
  (i <= j)%nat -> (j < String.length s)%nat ->
  slice s (Z.of_nat i) (Z.of_nat j + 1) = between i j s.
Proof.
  intros Hij Hj. unfold slice, clamp, len, between.
  destruct (Z.ltb_spec (Z.of_nat i) 0); [lia|].
  destruct (Z.ltb_spec (Z.of_nat j + 1) 0); [lia|].
  f_equal; lia.
Qed.

Lemma substring_whole (s t : string) :
  substring 0 (String.length s) (s ++ t) = s.
Proof.
  induction s as [|a s IH]; simpl.
  - destruct t; reflexivity.
  - rewrite IH. reflexivity.
Qed.

Lemma substring_middle (pre s t : string) :
  substring (String.length pre) (String.length s) (pre ++ s ++ t) = s.
Proof.
  induction pre as [|a pre IH]; simpl.
  - apply substring_whole.
  - exact IH.
Qed.

Lemma append_length (s t : string) :
  String.length (s ++ t) = (String.length s + String.length t)%nat.
Proof. induction s as [|a s IH]; simpl; [reflexivity | rewrite IH; reflexivity]. Qed.

Lemma append_assoc (s t u : string) : (s ++ t) ++ u = s ++ t ++ u.
Proof. induction s as [|a s IH]; simpl; [reflexivity | rewrite IH; reflexivity]. Qed.

Lemma append_empty_r (s : string) : s ++ EmptyString = s.
Proof. induction s as [|a s IH]; simpl; [reflexivity | rewrite IH; reflexivity]. Qed.

Lemma index_of_app (c : ascii) (pre s : string) :
  index_of c pre = None ->
  index_of c (pre ++ s) =
    match index_of c s with
    | Some i => Some (String.length pre + i)%nat
    | None => None
    end.
Proof.
  induction pre as [|a pre IH]; simpl; intros H.
  - destruct (index_of c s); reflexivity.
  - destruct (Ascii.eqb a c); [discriminate|].
    destruct (index_of c pre); [discriminate|].
    rewrite IH by reflexivity.
    destruct (index_of c s); reflexivity.
Qed.

Lemma rindex_of_app (c : ascii) (pre s : string) :
  forall j : nat,
    rindex_of c s = Some j ->
    rindex_of c (pre ++ s) = Some (String.length pre + j)%nat.
Proof.
  induction pre as [|a pre IH]; simpl; intros j H.
  - exact H.
  - rewrite (IH j H). reflexivity.
Qed.

Lemma rindex_of_before (c : ascii) (s post : string) :
  rindex_of c post = None ->
  rindex_of c (s ++ String c post) = Some (String.length s).
Proof.
  intros H. induction s as [|a s IH]; simpl.
  - rewrite H, Ascii.eqb_refl. reflexivity.
  - rewrite IH. reflexivity.
Qed.

(** ** The response extractor *)

Section ExtractorFacts.

Context {F : Type}.

Variable json_loads : string -> result (json F).

(** The extractor in terms of the two indices it computes. *)
Lemma parse_json_cases (content : string) :
  _parse_json json_loads content =
    match index_of "{" content, rindex_of "}" content with
    | Some i, Some j =>
        if (i <? j)%nat then
          match json_loads (between i j content) with
          | Ok v => Ok v
          | Raise _ => Ok (fallback content)
          end
        else Ok (fallback content)
    | _, _ => Ok (fallback content)
    end.
Proof.
  unfold _parse_json, find, rfind.
  destruct (index_of "{" content) as [i|] eqn:Hi;
    destruct (rindex_of "}" content) as [j|] eqn:Hj; simpl.
  - destruct (index_of_first _ _ _ Hi) as [Gi _].
    destruct (rindex_of_last _ _ _ Hj) as [Gj _].
    assert (i <> j) by (intros ->; rewrite Gi in Gj; discriminate).
    destruct (Z.eqb_spec (Z.of_nat i) (-1)); [lia|]. simpl.
    rewrite Z.gtb_ltb.
    destruct (Z.ltb_spec (Z.of_nat i) (Z.of_nat j + 1));
      destruct (Nat.ltb_spec i j); try lia; simpl.
    + rewrite slice_between by (try lia; eapply get_in_range; eassumption).
      destruct (json_loads (between i j content)); reflexivity.
    + reflexivity.
  - destruct (Z.eqb_spec (Z.of_nat i) (-1)); [lia|]. simpl.
    rewrite Z.gtb_ltb.
    destruct (Z.ltb_spec (Z.of_nat i) 0); [lia | reflexivity].
  - reflexivity.
  - reflexivity.
Qed.

(** Text that is an object in braces between a prefix with no opening
    brace and a suffix with no closing brace is extracted whole. *)
Lemma parse_json_padded (pre inner post : string) (v : json F) :
  index_of "{" pre = None -> rindex_of "}" post = None ->
  json_loads ("{" ++ inner ++ "}") = Ok v ->
  _parse_json json_loads (pre ++ ("{" ++ inner ++ "}") ++ post) = Ok v.
Proof.
  intros Hpre Hpost Hv.
  assert (E : pre ++ ("{" ++ inner ++ "}") ++ post
              = pre ++ String "{" (inner ++ String "}" post)).
  { simpl. rewrite append_assoc. reflexivity. }
  assert (I : index_of "{" (pre ++ String "{" (inner ++ String "}" post))
              = Some (String.length pre + 0)%nat).
  { rewrite index_of_app by exact Hpre. reflexivity. }
  assert (R : rindex_of "}" (pre ++ String "{" (inner ++ String "}" post))
              = Some (String.length pre + S (String.length inner))%nat).
  { apply rindex_of_app.
    change (String "{" (inner ++ String "}" post))
      with (("{" ++ inner) ++ String "}" post).
    rewrite rindex_of_before by exact Hpost. reflexivity. }
  assert (B : between (String.length pre + 0)
                (String.length pre + S (String.length inner))
                (pre ++ ("{" ++ inner ++ "}") ++ post)
              = "{" ++ inner ++ "}").
  { unfold between.
    replace (String.length pre + S (String.length inner)
             - (String.length pre + 0) + 1)%nat
      with (String.length ("{" ++ inner ++ "}"))
      by (simpl; rewrite append_length; simpl; lia).
    replace (String.length pre + 0)%nat with (String.length pre) by lia.
    apply substring_middle. }
  rewrite parse_json_cases, E, I, R.
  destruct (Nat.ltb_spec (String.length pre + 0)
              (String.length pre + S (String.length inner))); [|lia].
  rewrite <- E, B, Hv. reflexivity.
Qed.

End ExtractorFacts.

(** ** The reference decoder *)

(** At an opening brace the scanner yields a dict, or raises. *)
Lemma scan_once_object {F : Type} (float_of_str : string -> F)
  (fuel : nat) (s rest : string) (v : json F) :
  Json.scan_once float_of_str fuel (String "{" s) = Ok (v, rest) ->
  is_dict v.
Proof.
  destruct fuel as [|n]; intros H; [discriminate|].
  cbn in H.
  destruct (Json.skip_ws s) as [|c' rest']; [discriminate|].
  destruct (Ascii.eqb c' "}").
  - inversion H. eexists; reflexivity.
  - unfold bind in H.
    match type of H with
    | match ?m with Ok _ => _ | Raise _ => _ end = _ =>
        destruct m as [[d r]|e]
    end; inversion H.
    eexists; reflexivity.
Qed.

(** The reference decoder returns a dict, or raises, on a text that opens
    with a brace. *)
Lemma loads_object_decoder {F : Type} (float_of_str : string -> F) :
  object_decoder (Json.loads float_of_str).
Proof.
  intros s v H0 Hl.
  destruct s as [|c s]; [discriminate|].
  simpl in H0. inversion H0; subst c.
  unfold Json.loads in Hl.
  change (Json.skip_ws (String "{" s)) with (String "{" s) in Hl.
  destruct (Json.scan_once float_of_str (S (String.length (String "{" s)))
              (String "{" s)) as [[w r]|e] eqn:Hs; [|discriminate].
  cbn [bind fst snd] in Hl.
  destruct (Json.skip_ws r); inversion Hl; subst w.
  eapply scan_once_object. exact Hs.
Qed.

(** ** Claims about the response extractor *)

(** The extractor returns. *)
Lemma parse_json_returns {F : Type}
  (json_loads : string -> result (json F)) (content : string) :
  exists v : json F, _parse_json json_loads content = Ok v.
Proof.
  rewrite parse_json_cases.
  destruct (index_of "{" content) as [i|];
    [destruct (rindex_of "}" content) as [j|];
     [destruct (i <? j)%nat;
      [destruct (json_loads (between i j content)) as [v|e]|]|]|];
    eauto.
Qed.

(** C1.  The extractor returns the decoded object exactly when the text
    has a first opening brace, a last closing brace after it, and the
    substring between them, braces included, decodes; in every other case
    it returns the fallback object, whose single key [raw_response] holds
    the whole text. *)
Theorem parse_json_exactly_when_extractable {F : Type}
  (json_loads : string -> result (json F)) (content : string) :
  (exists v : json F,
      extractable json_loads content v
      /\ _parse_json json_loads content = Ok v)
  \/ ((forall v : json F, ~ extractable json_loads content v)
      /\ _parse_json json_loads content
         = Ok (JDict [("raw_response", JStr content)])).
Proof.
  rewrite parse_json_cases.
  assert (No : forall i j : nat,
             index_of "{" content = Some i -> rindex_of "}" content = Some j ->
             ((i < j)%nat ->
              forall v, json_loads (between i j content) <> Ok v) ->
             forall v, ~ extractable json_loads content v).
  { intros i j Hi Hj Hno v (i' & j' & Hf & Hl & Hlt & Hv).
    apply first_at_index_of in Hf. apply last_at_rindex_of in Hl.
    rewrite Hi in Hf. rewrite Hj in Hl.
    inversion Hf; inversion Hl; subst i' j'.
    exact (Hno Hlt v Hv). }
  destruct (index_of "{" content) as [i|] eqn:Hi.
  - destruct (rindex_of "}" content) as [j|] eqn:Hj.
    + destruct (Nat.ltb_spec i j) as [Hlt|Hge].
      * destruct (json_loads (between i j content)) as [v|e] eqn:Hv.
        -- left. exists v. split; [|reflexivity].
           exists i, j.
           repeat split; auto using index_of_first, rindex_of_last;
             try (apply index_of_first; exact Hi);
             try (apply rindex_of_last; exact Hj).
        -- right. split; [|reflexivity].
           apply (No i j eq_refl eq_refl). intros _ v. rewrite Hv. discriminate.
      * right. split; [|reflexivity].
        apply (No i j eq_refl eq_refl). intros Hlt. lia.
    + right. split; [|reflexivity].
      intros v (i' & j' & _ & Hl & _).
      apply last_at_rindex_of in Hl. rewrite Hj in Hl. discriminate.
  - right. split; [|reflexivity].
    intros v (i' & j' & Hf & _).
    apply first_at_index_of in Hf. rewrite Hi in Hf. discriminate.
Qed.

(** C2.  The extractor is total and never raises: for every text it
    returns a value, which is either the fallback object or a value the
    decoder returned; an exception of the decoder does not reach the
    caller. *)
Theorem parse_json_never_raises {F : Type}
  (json_loads : string -> result (json F)) (content : string) :
  exists v : json F,
    _parse_json json_loads content = Ok v
    /\ (v = fallback content \/ exists s : string, json_loads s = Ok v).
Proof.
  rewrite parse_json_cases.
  destruct (index_of "{" content) as [i|];
    [destruct (rindex_of "}" content) as [j|];
     [destruct (i <? j)%nat;
      [destruct (json_loads (between i j content)) as [v|e] eqn:Hv|]|]|];
    eauto.
Qed.

(** C9.  Every value the extractor returns is a dict: what it hands to the
    decoder opens with a brace, so a decoder that returns only dicts for
    such texts can only yield a dict, and the fallback is a dict. *)
Theorem parse_json_returns_dict {F : Type}
  (json_loads : string -> result (json F)) :
  object_decoder json_loads ->
  forall (content : string) (v : json F),
    _parse_json json_loads content = Ok v -> is_dict v.
Proof.
  intros Hdec content v. rewrite parse_json_cases.
  assert (Fb : Ok (fallback content) = Ok v -> is_dict v).
  { intros E. inversion E. eexists; reflexivity. }
  destruct (index_of "{" content) as [i|] eqn:Hi; [|exact Fb].
  destruct (rindex_of "}" content) as [j|]; [|exact Fb].
  destruct (i <? j)%nat; [|exact Fb].
  destruct (json_loads (between i j content)) as [w|e] eqn:Hw; [|exact Fb].
  intros E. inversion E; subst w.
  apply (Hdec (between i j content)); [|exact Hw].
  unfold between. rewrite substring_correct1 by lia.
  apply index_of_first in Hi. destruct Hi as [Hi _]. exact Hi.
Qed.

(** ** Occurrences in strings *)

Lemma infix_refl (x : string) : infix x x.
Proof. exists EmptyString, EmptyString. simpl. rewrite append_empty_r. reflexivity. Qed.

Lemma infix_app_l (x s t : string) : infix x s -> infix x (s ++ t).
Proof.
  intros (a & b & ->). exists a, (b ++ t).
  rewrite !append_assoc. reflexivity.
Qed.

Lemma infix_app_r (x s t : string) : infix x t -> infix x (s ++ t).
Proof.
  intros (a & b & ->). exists (s ++ a), b.
  rewrite !append_assoc. reflexivity.
Qed.

Lemma infix_trans (x y z : string) : infix x y -> infix y z -> infix x z.
Proof.
  intros (a & b & ->) (a' & b' & ->). exists (a' ++ a), (b ++ b').
  rewrite !append_assoc. reflexivity.
Qed.

Create HintDb infix.
#[local] Hint Resolve infix_refl infix_app_l infix_app_r : infix.

Lemma infix_join (sep p : string) (parts : list string) :
  In p parts -> infix p (join sep parts).
Proof.
  induction parts as [|q parts IH]; intros H; [contradiction|].
  destruct parts as [|r parts].
  - destruct H as [->|[]]. simpl. apply infix_refl.
  - change (join sep (q :: r :: parts)) with (q ++ sep ++ join sep (r :: parts)).
    destruct H as [->|H].
    + auto with infix.
    + apply infix_app_r, infix_app_r, IH, H.
Qed.

(** What occurs in a line of a prompt occurs in the prompt. *)
Lemma infix_line (n : nat) (x line : string) (parts : list string) :
  nth_error parts n = Some line -> infix x line -> infix x (unlines parts).
Proof.
  intros Hn Hx. apply (infix_trans x line); [exact Hx|].
  apply infix_join. eapply nth_error_In. exact Hn.
Qed.

Lemma unlines_nonempty (p q : string) (rest : list string) :
  unlines (p :: q :: rest) <> EmptyString.
Proof.
  change (unlines (p :: q :: rest))
    with (p ++ String newline (join (chr newline) (q :: rest))).
  destruct p; discriminate.
Qed.

Lemma prefix_app (x b : string) : String.prefix x (x ++ b) = true.
Proof.
  induction x as [|a x IH]; simpl.
  - destruct b; reflexivity.
  - destruct (ascii_dec a a); [exact IH | contradiction].
Qed.

(** [contains] finds every occurrence. *)
Lemma contains_complete (x s : string) : infix x s -> contains x s = true.
Proof.
  intros (a & b & ->).
  induction a as [|c a IH].
  - simpl append. generalize (prefix_app x b).
    destruct (x ++ b); simpl; intros ->; reflexivity.
  - change (String c a ++ x ++ b) with (String c (a ++ x ++ b)).
    simpl. rewrite IH. apply orb_true_r.
Qed.

(** ** What [json.dumps] leaves as it is *)

Lemma escape_plain (c : ascii) : plain_char c = true -> Dumps.escape c = chr c.
Proof.
  unfold plain_char, Dumps.escape. intros H.
  apply andb_prop in H. destruct H as [H Hb].
  apply andb_prop in H. destruct H as [H Hq].
  apply andb_prop in H. destruct H as [Hlo Hhi].
  apply Nat.leb_le in Hlo. apply Nat.leb_le in Hhi.
  destruct (Ascii.eqb c dquote); [discriminate|].
  destruct (Ascii.eqb c "\"); [discriminate|].
  repeat match goal with
         | |- context [(?a =? ?b)%nat] => destruct (Nat.eqb_spec a b); [lia|]
         end.
  destruct (Nat.ltb_spec (nat_of_ascii c) 32); [lia|].
  destruct (Nat.ltb_spec 126 (nat_of_ascii c)); [lia|].
  reflexivity.
Qed.

Lemma escape_all_plain (s : string) : plain s = true -> Dumps.escape_all s = s.
Proof.
  induction s as [|c s IH]; simpl; intros H; [reflexivity|].
  apply andb_prop in H. destruct H as [Hc Hs].
  rewrite escape_plain by exact Hc. rewrite IH by exact Hs. reflexivity.
Qed.

(** A plain topic stands in the serialised list as it is. *)
Lemma plain_topic_in_dumps (t : string) (topics : list string) :
  In t topics -> plain t = true -> infix t (Dumps.dumps_strs topics).
Proof.
  intros Hin Hp. unfold Dumps.dumps_strs.
  apply infix_app_r, infix_app_l.
  apply (infix_trans t (Dumps.dumps_str t)).
  - unfold Dumps.dumps_str. rewrite escape_all_plain by exact Hp.
    auto with infix.
  - apply infix_join. apply in_map. exact Hin.
Qed.

(** ** Claims about the prompts *)

(** [str] renders an integer exactly when it has few enough digits. *)
Lemma str_of_int_cases (n : Z) :
  (renderable n -> str_of_int n = Ok (decimal n))
  /\ (~ renderable n -> str_of_int n = Raise ValueError).
Proof.
  unfold renderable, str_of_int.
  destruct (Nat.leb_spec (String.length (decimal (Z.abs n))) max_str_digits);
    split; intros H'; try reflexivity; try contradiction; lia.
Qed.

(** C3, amended.  When every count and the duration has at most 4300
    digits, the most the interpreter renders, every prompt is built and is
    a non-empty string.  The prompts of "generate questions", "generate by
    Bloom level", "generate flashcards" and "check answer" hold every string
    parameter as it was given and the decimal rendering of every count.  The
    practice exam prompt holds the decimal rendering of the duration and the
    [json.dumps] rendering of the list of topics, in which a topic stands as
    it was given when it is made of the characters from space to tilde other
    than the double quote and the backslash.  When a count or the duration
    has more than 4300 digits, no prompt is built: [ValueError] is
    raised. *)
Theorem prompts_hold_their_parameters
  (content question_type difficulty topic bloom_level : string)
  (question student_answer correct_answer : string)
  (topics : list string) (num_questions duration_minutes num_cards : Z) :
  ((renderable num_questions ->
    exists p : string,
      generate_questions_prompt content num_questions question_type difficulty
        = Ok p
      /\ p <> EmptyString /\ infix content p
      /\ infix (decimal num_questions) p
      /\ infix question_type p /\ infix difficulty p)
   /\ (~ renderable num_questions ->
       generate_questions_prompt content num_questions question_type
         difficulty = Raise ValueError))
  /\ (let p := generate_by_bloom_prompt topic bloom_level in
      p <> EmptyString /\ infix topic p /\ infix bloom_level p)
  /\ ((renderable duration_minutes ->
       exists p : string,
         create_practice_exam_prompt topics duration_minutes = Ok p
         /\ p <> EmptyString /\ infix (Dumps.dumps_strs topics) p
         /\ infix (decimal duration_minutes) p
         /\ forall t : string, In t topics -> plain t = true -> infix t p)
      /\ (~ renderable duration_minutes ->
          create_practice_exam_prompt topics duration_minutes
            = Raise ValueError))
  /\ ((renderable num_cards ->
       exists p : string,
         generate_flashcards_prompt content num_cards = Ok p
         /\ p <> EmptyString /\ infix content p
         /\ infix (decimal num_cards) p)
      /\ (~ renderable num_cards ->
          generate_flashcards_prompt content num_cards = Raise ValueError))
  /\ (let p := check_answer_prompt question student_answer correct_answer in
      p <> EmptyString /\ infix question p /\ infix student_answer p
      /\ infix correct_answer p).
Proof.
  cbv zeta.
  unfold generate_questions_prompt, generate_by_bloom_prompt,
    create_practice_exam_prompt, generate_flashcards_prompt,
    check_answer_prompt.
  destruct (str_of_int_cases num_questions) as [Qy Qn].
  destruct (str_of_int_cases duration_minutes) as [Dy Dn].
  destruct (str_of_int_cases num_cards) as [Cy Cn].
  repeat match goal with
         | |- _ /\ _ => split
         end;
    try apply unlines_nonempty;
    try (intros H; first [rewrite (Qn H) | rewrite (Dn H) | rewrite (Cn H)];
         reflexivity).
  - intros H. rewrite (Qy H). cbn [bind]. eexists. split; [reflexivity|].
    split; [apply unlines_nonempty|].
    repeat split.
    + eapply (infix_line 3); [reflexivity | auto with infix].
    + eapply (infix_line 5); [reflexivity | auto with infix].
    + eapply (infix_line 6); [reflexivity | auto with infix].
    + eapply (infix_line 7); [reflexivity | auto with infix].
  - eapply (infix_line 2); [reflexivity | auto with infix].
  - eapply (infix_line 3); [reflexivity | auto with infix].
  - intros H. rewrite (Dy H). cbn [bind]. eexists. split; [reflexivity|].
    split; [apply unlines_nonempty|].
    repeat split.
    + eapply (infix_line 2); [reflexivity | auto with infix].
    + eapply (infix_line 3); [reflexivity | auto with infix].
    + intros t Hin Hp. eapply (infix_line 2); [reflexivity|].
      apply infix_app_r. apply plain_topic_in_dumps; assumption.
  - intros H. rewrite (Cy H). cbn [bind]. eexists. split; [reflexivity|].
    split; [apply unlines_nonempty|].
    repeat split.
    + eapply (infix_line 3); [reflexivity | auto with infix].
    + eapply (infix_line 5); [reflexivity | auto with infix].
  - eapply (infix_line 2); [reflexivity | auto with infix].
  - eapply (infix_line 3); [reflexivity | auto with infix].
  - eapply (infix_line 4); [reflexivity | auto with infix].
Qed.

(** C3, as stated, fails in two ways.  The practice exam prompt does not
    hold a topic with a double quote in it, which [json.dumps] writes
    escaped; and no prompt is built for a count of 4301 digits. *)
Lemma exam_prompt_escapes_quoted_topic :
  (exists p : string,
      create_practice_exam_prompt [quoted_topic] 60 = Ok p
      /\ In quoted_topic [quoted_topic]
      /\ ~ infix quoted_topic p)
  /\ generate_flashcards_prompt EmptyString (10 ^ 4300) = Raise ValueError.
Proof.
  split.
  - eexists. split; [vm_compute; reflexivity|].
    split; [left; reflexivity|].
    intros H. apply contains_complete in H.
    vm_compute in H. discriminate.
  - vm_compute. reflexivity.
Qed.

(** ** The methods and the two lists *)

Lemma chars_length {F : Type} (s : string) :
  List.length (@chars F s) = String.length s.
Proof. induction s as [|c s IH]; simpl; [reflexivity | rewrite IH; reflexivity]. Qed.

Lemma with_questions_nil {F : Type} (self : ExamQuestionGenerator F) :
  with_questions self [] = self.
Proof.
  destruct self as [m b h]. unfold with_questions. simpl.
  rewrite app_nil_r. reflexivity.
Qed.

(** A step that returns hands its value to the rest of the method. *)
Lemma then_eval_ok {F A B : Type} (a : A) (k : A -> method F B)
  (self : ExamQuestionGenerator F) :
  then_ (eval (Ok a)) k self = k a self.
Proof. reflexivity. Qed.

(** A step that raises ends the method, the object as it was. *)
Lemma then_eval_raise {F A B : Type} (e : exn) (k : A -> method F B)
  (self : ExamQuestionGenerator F) :
  then_ (@eval F A (Raise e)) k self = (Raise e, self).
Proof. reflexivity. Qed.

Section MethodFacts.

Context {F : Type}.

Variable json_loads : string -> result (json F).
Variable chat : string -> string -> result string.

(** A call of [generate_questions] that goes through, step by step. *)
Lemma generate_questions_run
  (content : string) (num : Z) (qtype difficulty prompt text : string)
  (self : ExamQuestionGenerator F) (result questions : json F)
  (items : list (json F)) :
  generate_questions_prompt content num qtype difficulty = Ok prompt ->
  chat (model self) prompt = Ok text ->
  _parse_json json_loads text = Ok result ->
  get result "questions" (JList []) = Ok questions ->
  iterate questions = Ok items ->
  generate_questions json_loads chat content num qtype difficulty self
    = (Ok result, with_questions self items).
Proof.
  intros Hb Hc Hp Hg Hi.
  unfold generate_questions. rewrite Hb, then_eval_ok.
  unfold then_, ask, eval, extend_question_bank, ret.
  rewrite Hc, Hp, Hg, Hi. reflexivity.
Qed.

(** C4.  When the extracted result is a dict whose key [questions] holds a
    list, one call of [generate_questions] returns the result and adds the
    items of that list, in order, at the end of the question bank, which
    grows by their number; when the dict has no key [questions], as the
    fallback object has none, the call returns the result and leaves the
    object as it was. *)
Theorem generate_questions_extends_bank
  (content : string) (num : Z) (qtype difficulty prompt text : string)
  (self : ExamQuestionGenerator F) (fields : list (string * json F)) :
  generate_questions_prompt content num qtype difficulty = Ok prompt ->
  chat (model self) prompt = Ok text ->
  _parse_json json_loads text = Ok (JDict fields) ->
  let out :=
    generate_questions json_loads chat content num qtype difficulty self in
  (forall qs : list (json F),
      lookup "questions" fields = Some (JList qs) ->
      fst out = Ok (JDict fields)
      /\ question_bank (snd out) = (question_bank self ++ qs)%list
      /\ List.length (question_bank (snd out))
         = (List.length (question_bank self) + List.length qs)%nat
      /\ quiz_history (snd out) = quiz_history self)
  /\ (lookup "questions" fields = None ->
      fst out = Ok (JDict fields) /\ snd out = self).
Proof.
  intros Hb Hc Hp out. subst out. split.
  - intros qs Hq.
    rewrite (generate_questions_run content num qtype difficulty prompt text
               self (JDict fields) (JList qs) qs Hb Hc Hp);
      [|simpl; rewrite Hq; reflexivity | reflexivity].
    simpl. rewrite length_app. auto.
  - intros Hq.
    rewrite (generate_questions_run content num qtype difficulty prompt text
               self (JDict fields) (JList []) [] Hb Hc Hp);
      [|simpl; rewrite Hq; reflexivity | reflexivity].
    simpl. rewrite with_questions_nil. auto.
Qed.

(** C10.  The value under [questions] is not checked to be a list of
    questions: when it is a string, the call adds the characters of the
    string, one entry each, at the end of the question bank, which grows
    by the length of the string. *)
Theorem generate_questions_adds_characters
  (content : string) (num : Z) (qtype difficulty prompt text s : string)
  (self : ExamQuestionGenerator F) (fields : list (string * json F)) :
  generate_questions_prompt content num qtype difficulty = Ok prompt ->
  chat (model self) prompt = Ok text ->
  _parse_json json_loads text = Ok (JDict fields) ->
  lookup "questions" fields = Some (JStr s) ->
  let out :=
    generate_questions json_loads chat content num qtype difficulty self in
  fst out = Ok (JDict fields)
  /\ question_bank (snd out) = (question_bank self ++ chars s)%list
  /\ List.length (question_bank (snd out))
     = (List.length (question_bank self) + String.length s)%nat.
Proof.
  intros Hb Hc Hp Hq out. subst out.
  rewrite (generate_questions_run content num qtype difficulty prompt text self
             (JDict fields) (JStr s) (chars s) Hb Hc Hp);
    [|simpl; rewrite Hq; reflexivity | reflexivity].
  simpl. rewrite length_app, chars_length. auto.
Qed.

(** C5.  A call of [create_practice_exam] whose chat call returns adds
    exactly one entry, the whole extracted result, at the end of the quiz
    history, and leaves the question bank as it was; a call that raises,
    because the chat call raises or because the prompt cannot be built,
    changes nothing. *)
Theorem create_practice_exam_appends_result
  (topics : list string) (duration : Z) (self : ExamQuestionGenerator F) :
  let out := create_practice_exam json_loads chat topics duration self in
  (forall prompt text : string,
      create_practice_exam_prompt topics duration = Ok prompt ->
      chat (model self) prompt = Ok text ->
      exists result : json F,
        _parse_json json_loads text = Ok result
        /\ fst out = Ok result
        /\ quiz_history (snd out) = (quiz_history self ++ [result])%list
        /\ List.length (quiz_history (snd out))
           = S (List.length (quiz_history self))
        /\ question_bank (snd out) = question_bank self)
  /\ (forall (prompt : string) (e : exn),
      create_practice_exam_prompt topics duration = Ok prompt ->
      chat (model self) prompt = Raise e ->
      out = (Raise e, self))
  /\ (forall e : exn,
      create_practice_exam_prompt topics duration = Raise e ->
      out = (Raise e, self)).
Proof.
  intros out. subst out. unfold create_practice_exam.
  split; [|split].
  - intros prompt text Hb Hc. rewrite Hb, then_eval_ok.
    unfold then_, ask, eval, append_quiz_history, ret. rewrite Hc.
    destruct (parse_json_returns json_loads text) as [result Hr].
    exists result. rewrite Hr. simpl.
    rewrite length_app. simpl. repeat split; auto. lia.
  - intros prompt e Hb Hc. rewrite Hb, then_eval_ok.
    unfold then_, ask. rewrite Hc. reflexivity.
  - intros e Hb. rewrite Hb. reflexivity.
Qed.

(** C6.  [generate_by_bloom], [generate_flashcards] and [check_answer]
    leave the object, and so both of its lists, as they found it, whatever
    the chat call and the extractor return. *)
Theorem other_methods_change_nothing
  (topic bloom_level content question student_answer correct_answer : string)
  (num_cards : Z) (self : ExamQuestionGenerator F) :
  snd (generate_by_bloom json_loads chat topic bloom_level self) = self
  /\ snd (generate_flashcards json_loads chat content num_cards self) = self
  /\ snd (check_answer json_loads chat question student_answer correct_answer
            self) = self.
Proof.
  unfold generate_by_bloom, generate_flashcards, check_answer, then_, ask, eval.
  repeat split.
  - destruct (chat (model self) (generate_by_bloom_prompt topic bloom_level));
      reflexivity.
  - destruct (generate_flashcards_prompt content num_cards) as [prompt|e];
      [|reflexivity].
    destruct (chat (model self) prompt); reflexivity.
  - destruct (chat (model self)
                (check_answer_prompt question student_answer correct_answer));
      reflexivity.
Qed.

End MethodFacts.
(** ** The session *)

Lemma extends_refl {A : Type} (l : list A) : extends l l.
Proof. exists []. rewrite app_nil_r. reflexivity. Qed.

Lemma extends_app {A : Type} (l added : list A) : extends l (l ++ added).
Proof. exists added. reflexivity. Qed.

Lemma extends_trans {A : Type} (l1 l2 l3 : list A) :
  extends l1 l2 -> extends l2 l3 -> extends l1 l3.
Proof.
  intros [a ->] [b ->]. exists (a ++ b)%list. rewrite app_assoc. reflexivity.
Qed.

Lemma grows_refl {F : Type} (self : ExamQuestionGenerator F) : grows self self.
Proof. split; apply extends_refl. Qed.

Lemma grows_trans {F : Type} (a b c : ExamQuestionGenerator F) :
  grows a b -> grows b c -> grows a c.
Proof. intros [H1 H2] [H3 H4]. split; eapply extends_trans; eassumption. Qed.

Section SessionFacts.

Context {F : Type}.

Variable json_loads : string -> result (json F).
Variable console : display F -> result unit.

Lemma append_only_ret {A : Type} (a : A) : append_only (@ret F A a).
Proof. intros self. apply grows_refl. Qed.

Lemma append_only_eval {A : Type} (r : result A) : append_only (@eval F A r).
Proof. intros self. apply grows_refl. Qed.

Lemma append_only_this : append_only (@this F).
Proof. intros self. apply grows_refl. Qed.

Lemma append_only_ask (chat : string -> string -> result string)
  (prompt : string) : append_only (@ask F chat prompt).
Proof. intros self. apply grows_refl. Qed.

Lemma append_only_then {A B : Type} (m : method F A) (k : A -> method F B) :
  append_only m -> (forall a : A, append_only (k a)) ->
  append_only (then_ m k).
Proof.
  intros Hm Hk self. unfold then_.
  specialize (Hm self). destruct (m self) as [[a|e] self']; simpl in *.
  - eapply grows_trans; [exact Hm | apply Hk].
  - exact Hm.
Qed.

Lemma append_only_extend (o : json F) : append_only (extend_question_bank o).
Proof.
  intros self. unfold extend_question_bank.
  destruct (iterate o) as [items|e]; simpl.
  - split; simpl; [apply extends_app | apply extends_refl].
  - apply grows_refl.
Qed.

Lemma append_only_append (o : json F) : append_only (append_quiz_history o).
Proof.
  intros self. split; simpl; [apply extends_refl | apply extends_app].
Qed.

Create HintDb session.
#[local] Hint Resolve append_only_ret append_only_eval append_only_this
  append_only_ask append_only_extend append_only_append : session.

(** Closes a goal [append_only m] for a method built from the steps
    above. *)
#[local] Hint Extern 2 (append_only (then_ _ _)) =>
  apply append_only_then; [|intros] : session.

Lemma append_only_view : append_only (view_bank console).
Proof.
  unfold view_bank. apply append_only_then; [auto with session|].
  intros self. destruct (question_bank self); auto with session.
Qed.

(** The branch a pass takes only adds to the two lists. *)
Lemma append_only_selected (t : turn) :
  append_only (selected json_loads console t).
Proof.
  unfold selected, generate_questions, generate_by_bloom,
    create_practice_exam, generate_flashcards, check_answer.
  repeat match goal with
         | |- context [if ?b then _ else _] => destruct b
         end;
    auto 12 with session.
Qed.

(** One pass through the loop body only adds to the two lists. *)
Lemma append_only_body (t : turn) : append_only (body json_loads console t).
Proof.
  unfold body.
  repeat (apply append_only_then; [auto with session | intros]).
  repeat match goal with
         | |- context [if ?b then _ else _] => destruct b
         end;
    repeat (apply append_only_then;
            [auto using append_only_view, append_only_selected with session
            | intros]);
    auto with session.
Qed.

Lemma append_only_loop (turns : list turn) :
  append_only (loop json_loads console turns).
Proof.
  induction turns as [|t turns IH]; simpl.
  - auto with session.
  - apply append_only_then; [apply append_only_body|].
    intros [|]; auto with session.
Qed.

(** Running more turns continues from where the first turns stopped. *)
Lemma loop_app (before after : list turn) (self : ExamQuestionGenerator F) :
  loop json_loads console (before ++ after) self =
    match loop json_loads console before self with
    | (Ok Continue, self') => loop json_loads console after self'
    | stopped => stopped
    end.
Proof.
  revert self. induction before as [|t before IH]; intros self; simpl.
  - reflexivity.
  - unfold then_.
    destruct (body json_loads console t self) as [[[|]|e] self'];
      [apply IH | reflexivity | reflexivity].
Qed.

Lemma loop_app_grows (before after : list turn)
  (self : ExamQuestionGenerator F) :
  grows (snd (loop json_loads console before self))
        (snd (loop json_loads console (before ++ after) self)).
Proof.
  rewrite loop_app.
  destruct (loop json_loads console before self) as [[[|]|e] self'];
    simpl; try apply grows_refl.
  apply append_only_loop.
Qed.

(** C7.  Within a session the question bank and the quiz history only
    grow: a pass through the loop body, whatever the choice, leaves the
    earlier entries of both lists in place and in order at the front of the
    new lists; so does every continuation of a session; and the passes
    for "View Bank" and for the exit leave the object as it was. *)
Theorem session_lists_only_grow :
  (forall (t : turn) (self : ExamQuestionGenerator F),
      grows self (snd (body json_loads console t self)))
  /\ (forall before after : list turn,
      grows (snd (main json_loads console before))
            (snd (main json_loads console (before ++ after))))
  /\ (forall (t : turn) (self : ExamQuestionGenerator F),
      choice t = "6" \/ choice t = "0" ->
      snd (body json_loads console t self) = self).
Proof.
  split; [|split].
  - intros t self. apply append_only_body.
  - intros before after. unfold main, then_, eval.
    destruct (console Banner); simpl; [apply loop_app_grows | apply grows_refl].
  - intros t self Hc. unfold body, view_bank, then_, eval, this, ret.
    destruct (console Menu); [|reflexivity].
    destruct (console (BankCount (List.length (question_bank self))));
      [|reflexivity].
    destruct Hc as [Hc|Hc]; rewrite Hc; cbn [String.eqb Ascii.eqb Bool.eqb].
    + destruct (question_bank self) as [|q l].
      * destruct (console EmptyBank); reflexivity.
      * destruct (print_entries console 1 (last_five (q :: l))); reflexivity.
    + destruct (console Goodbye); reflexivity.
Qed.

End SessionFacts.

(** ** The claims on sample data *)

(** The three texts of the specification's examples. *)
Example extract_surrounded_object :
  _parse_json sample_loads (lit "noise {`a`: 1} trailing")
  = Ok (JDict [("a", JInt 1)]).
Proof. vm_compute. reflexivity. Qed.

Example extract_malformed_object :
  _parse_json sample_loads "{not valid json}"
  = Ok (fallback "{not valid json}").
Proof. vm_compute. reflexivity. Qed.

Example extract_without_braces :
  _parse_json sample_loads "no braces here"
  = Ok (fallback "no braces here").
Proof. vm_compute. reflexivity. Qed.

(** C9 on the reference decoder and a reply with text around the object. *)
Lemma parse_json_returns_dict_sample :
  object_decoder sample_loads
  /\ _parse_json sample_loads two_questions_reply
     = Ok (JDict
             [("topic", JStr "sets");
              ("questions",
               JList [JDict [("id", JInt 1)]; JDict [("id", JInt 2)]])])
  /\ is_dict
       (JDict
          [("topic", JStr "sets");
           ("questions",
            JList [JDict [("id", JInt 1)];
                   JDict [("id", @JInt string 2)]])]).
Proof.
  assert (D : object_decoder sample_loads) by apply loads_object_decoder.
  assert (E : _parse_json sample_loads two_questions_reply
              = Ok (JDict
                      [("topic", JStr "sets");
                       ("questions",
                        JList [JDict [("id", JInt 1)];
                               JDict [("id", JInt 2)]])]))
    by (vm_compute; reflexivity).
  split; [exact D|]. split; [exact E|].
  exact (parse_json_returns_dict sample_loads D two_questions_reply _ E).
Defined.

(** C4 on a new generator and a reply that holds two questions: the bank
    goes from no entry to two. *)
Lemma generate_questions_two_questions :
  (exists prompt : string,
      generate_questions_prompt "Sets and maps" 2 "Mixed" "easy" = Ok prompt)
  /\ _parse_json sample_loads two_questions_reply
     = Ok (JDict
             [("topic", JStr "sets");
              ("questions",
               JList [JDict [("id", JInt 1)]; JDict [("id", JInt 2)]])])
  /\ question_bank
       (snd (generate_questions sample_loads (fun _ _ => Ok two_questions_reply)
               "Sets and maps" 2 "Mixed" "easy" (__init__ "llama3.2")))
     = [JDict [("id", JInt 1)]; JDict [("id", JInt 2)]]
  /\ List.length
       (question_bank
          (snd (generate_questions sample_loads
                  (fun _ _ => Ok two_questions_reply)
                  "Sets and maps" 2 "Mixed" "easy" (__init__ "llama3.2"))))
     = 2%nat.
Proof.
  assert (B : exists prompt : string,
             generate_questions_prompt "Sets and maps" 2 "Mixed" "easy"
             = Ok prompt) by (eexists; vm_compute; reflexivity).
  assert (E : _parse_json sample_loads two_questions_reply
              = Ok (JDict
                      [("topic", JStr "sets");
                       ("questions",
                        JList [JDict [("id", JInt 1)];
                               JDict [("id", JInt 2)]])]))
    by (vm_compute; reflexivity).
  split; [exact B|]. split; [exact E|].
  destruct B as [prompt Hb].
  destruct (proj1 (generate_questions_extends_bank sample_loads
                     (fun _ _ => Ok two_questions_reply)
                     "Sets and maps" 2 "Mixed" "easy" prompt
                     two_questions_reply
                     (__init__ "llama3.2") _ Hb eq_refl E)
              [JDict [("id", JInt 1)]; JDict [("id", JInt 2)]] eq_refl)
    as (_ & Hbank & Hlen & _).
  split; [exact Hbank | exact Hlen].
Defined.

(** C10 on a new generator and a reply whose [questions] is the string
    [abc]: the bank receives three one-character entries. *)
Lemma generate_questions_adds_characters_sample :
  (exists prompt : string,
      generate_questions_prompt "Sets and maps" 2 "Mixed" "easy" = Ok prompt)
  /\ _parse_json sample_loads string_questions_reply
     = Ok (JDict [("questions", JStr "abc")])
  /\ question_bank
       (snd (generate_questions sample_loads
               (fun _ _ => Ok string_questions_reply)
               "Sets and maps" 2 "Mixed" "easy" (__init__ "llama3.2")))
     = [JStr "a"; JStr "b"; JStr "c"]
  /\ List.length
       (question_bank
          (snd (generate_questions sample_loads
                  (fun _ _ => Ok string_questions_reply)
                  "Sets and maps" 2 "Mixed" "easy" (__init__ "llama3.2"))))
     = 3%nat.
Proof.
  assert (B : exists prompt : string,
             generate_questions_prompt "Sets and maps" 2 "Mixed" "easy"
             = Ok prompt) by (eexists; vm_compute; reflexivity).
  assert (E : _parse_json sample_loads string_questions_reply
              = Ok (JDict [("questions", JStr "abc")]))
    by (vm_compute; reflexivity).
  split; [exact B|]. split; [exact E|].
  destruct B as [prompt Hb].
  destruct (generate_questions_adds_characters sample_loads
              (fun _ _ => Ok string_questions_reply)
              "Sets and maps" 2 "Mixed" "easy" prompt string_questions_reply
              "abc" (__init__ "llama3.2") _ Hb eq_refl E eq_refl)
    as (_ & Hbank & Hlen).
  split; [exact Hbank | exact Hlen].
Defined.
(** * Further properties of the code *)

(** ** The extractor and the methods *)

Lemma find_absent (c : ascii) (s : string) :
  find c s = -1 -> index_of c s = None.
Proof. unfold find. destruct (index_of c s); [lia | reflexivity]. Qed.

Lemma rfind_absent (c : ascii) (s : string) :
  rfind c s = -1 -> rindex_of c s = None.
Proof. unfold rfind. destruct (rindex_of c s); [lia | reflexivity]. Qed.

Section MoreMethodFacts.

Context {F : Type}.

Variable json_loads : string -> result (json F).
Variable chat : string -> string -> result string.

(** The extractor falls back on a text from which nothing can be
    extracted. *)
Lemma parse_json_fallback (content : string) :
  (forall v : json F, ~ extractable json_loads content v) ->
  _parse_json json_loads content = Ok (fallback content).
Proof.
  intros Hno. rewrite parse_json_cases.
  destruct (index_of "{" content) as [i|] eqn:Hi; [|reflexivity].
  destruct (rindex_of "}" content) as [j|] eqn:Hj; [|reflexivity].
  destruct (Nat.ltb_spec i j) as [Hlt|Hge]; [|reflexivity].
  destruct (json_loads (between i j content)) as [v|e] eqn:Hv; [|reflexivity].
  exfalso. apply (Hno v). exists i, j.
  repeat split; try assumption;
    try (apply index_of_first; exact Hi);
    try (apply rindex_of_last; exact Hj).
Qed.

Lemma no_brace_not_extractable (content : string) :
  index_of "{" content = None ->
  forall v : json F, ~ extractable json_loads content v.
Proof.
  intros Hi v (i & j & Hf & _).
  apply first_at_index_of in Hf. rewrite Hi in Hf. discriminate.
Qed.

(** The extractor on an object in braces with text around it that holds no
    brace of the kind that would move the slice. *)
Lemma parse_json_padded_cases (pre inner post : string) :
  index_of "{" pre = None -> rindex_of "}" post = None ->
  _parse_json json_loads (pre ++ ("{" ++ inner ++ "}") ++ post) =
    match json_loads ("{" ++ inner ++ "}") with
    | Ok v => Ok v
    | Raise _ => Ok (fallback (pre ++ ("{" ++ inner ++ "}") ++ post))
    end.
Proof.
  intros Hpre Hpost.
  destruct (json_loads ("{" ++ inner ++ "}")) as [v|e] eqn:Hv.
  - apply parse_json_padded; assumption.
  - apply parse_json_fallback.
    intros v (i & j & Hf & Hl & Hlt & Hd).
    assert (E : pre ++ ("{" ++ inner ++ "}") ++ post
                = pre ++ String "{" (inner ++ String "}" post)).
    { simpl. rewrite append_assoc. reflexivity. }
    assert (Hi : index_of "{" (pre ++ ("{" ++ inner ++ "}") ++ post)
                 = Some (String.length pre + 0)%nat).
    { rewrite E, index_of_app by exact Hpre. reflexivity. }
    assert (Hj : rindex_of "}" (pre ++ ("{" ++ inner ++ "}") ++ post)
                 = Some (String.length pre + S (String.length inner))%nat).
    { rewrite E. apply rindex_of_app.
      change (String "{" (inner ++ String "}" post))
        with (("{" ++ inner) ++ String "}" post).
      rewrite rindex_of_before by exact Hpost. reflexivity. }
    apply first_at_index_of in Hf. apply last_at_rindex_of in Hl.
    rewrite Hi in Hf. rewrite Hj in Hl. inversion Hf; inversion Hl; subst i j.
    unfold between in Hd.
    replace (String.length pre + S (String.length inner)
             - (String.length pre + 0) + 1)%nat
      with (String.length ("{" ++ inner ++ "}")) in Hd
      by (simpl; rewrite append_length; simpl; lia).
    replace (String.length pre + 0)%nat with (String.length pre) in Hd by lia.
    rewrite substring_middle in Hd. rewrite Hv in Hd. discriminate.
Qed.

(** X7.  Text around an object in braces is ignored as long as the text
    before holds no opening brace and the text after no closing brace: the
    extractor returns what the decoder makes of the object alone, and when
    the decoder rejects the object, the fallback holds the whole text,
    surroundings included. *)
Theorem parse_json_ignores_surrounding_text (pre inner post : string) :
  find "{" pre = -1 -> rfind "}" post = -1 ->
  _parse_json json_loads (pre ++ ("{" ++ inner ++ "}") ++ post) =
    match json_loads ("{" ++ inner ++ "}") with
    | Ok v => Ok v
    | Raise _ =>
        Ok (JDict
              [("raw_response",
                JStr (pre ++ ("{" ++ inner ++ "}") ++ post))])
    end.
Proof.
  intros Hpre Hpost.
  apply parse_json_padded_cases; auto using find_absent, rfind_absent.
Qed.

(** A call of [generate_questions] whose argument of [extend] cannot be
    iterated over. *)
Lemma generate_questions_stops
  (content : string) (num : Z) (qtype difficulty prompt text : string)
  (self : ExamQuestionGenerator F) (result questions : json F) (e : exn) :
  generate_questions_prompt content num qtype difficulty = Ok prompt ->
  chat (model self) prompt = Ok text ->
  _parse_json json_loads text = Ok result ->
  get result "questions" (JList []) = Ok questions ->
  iterate questions = Raise e ->
  generate_questions json_loads chat content num qtype difficulty self
    = (Raise e, self).
Proof.
  intros Hb Hc Hp Hg Hi.
  unfold generate_questions. rewrite Hb, then_eval_ok.
  unfold then_, ask, eval, extend_question_bank, ret.
  rewrite Hc, Hp, Hg, Hi. reflexivity.
Qed.

(** X1.  When the extracted dict holds under [questions] a value that is
    neither a list, a string nor a dict (a number, a boolean or null), the
    call of [generate_questions] raises [TypeError] instead of returning the
    result, and the object is left as it was. *)
Theorem generate_questions_rejects_scalars
  (content : string) (num : Z) (qtype difficulty prompt text : string)
  (self : ExamQuestionGenerator F) (fields : list (string * json F))
  (v : json F) :
  generate_questions_prompt content num qtype difficulty = Ok prompt ->
  chat (model self) prompt = Ok text ->
  _parse_json json_loads text = Ok (JDict fields) ->
  lookup "questions" fields = Some v ->
  match v with
  | JList _ | JStr _ | JDict _ => False
  | _ => True
  end ->
  generate_questions json_loads chat content num qtype difficulty self
    = (Raise TypeError, self).
Proof.
  intros Hb Hc Hp Hq Hv.
  apply (generate_questions_stops content num qtype difficulty prompt text
           self (JDict fields) v TypeError Hb Hc Hp).
  - simpl. rewrite Hq. reflexivity.
  - destruct v; try contradiction; reflexivity.
Qed.

(** X2.  When the extracted dict holds a dict under [questions], the call
    adds the keys of that dict, as strings and in their order, at the end
    of the question bank; the values under the keys are not stored. *)
Theorem generate_questions_adds_keys
  (content : string) (num : Z) (qtype difficulty prompt text : string)
  (self : ExamQuestionGenerator F)
  (fields inner : list (string * json F)) :
  generate_questions_prompt content num qtype difficulty = Ok prompt ->
  chat (model self) prompt = Ok text ->
  _parse_json json_loads text = Ok (JDict fields) ->
  lookup "questions" fields = Some (JDict inner) ->
  let out :=
    generate_questions json_loads chat content num qtype difficulty self in
  fst out = Ok (JDict fields)
  /\ question_bank (snd out)
     = (question_bank self ++ map (fun kv => JStr (fst kv)) inner)%list
  /\ List.length (question_bank (snd out))
     = (List.length (question_bank self) + List.length inner)%nat.
Proof.
  intros Hb Hc Hp Hq out. subst out.
  rewrite (generate_questions_run json_loads chat content num qtype difficulty
             prompt text self (JDict fields) (JDict inner)
             (map (fun kv => JStr (fst kv)) inner) Hb Hc Hp);
    [|simpl; rewrite Hq; reflexivity | reflexivity].
  simpl. rewrite length_app, length_map. auto.
Qed.

(** X3.  With a decoder that returns only dicts for texts that open with a
    brace, a call of [generate_questions] whose chat call returns can fail
    in one way only: the extracted result is a dict, and the call either
    returns it or raises [TypeError] with the object untouched, the latter
    exactly because [questions] holds a value that cannot be iterated
    over. *)
Theorem generate_questions_fails_only_on_extend
  (content : string) (num : Z) (qtype difficulty prompt text : string)
  (self : ExamQuestionGenerator F) :
  object_decoder json_loads ->
  generate_questions_prompt content num qtype difficulty = Ok prompt ->
  chat (model self) prompt = Ok text ->
  let out :=
    generate_questions json_loads chat content num qtype difficulty self in
  exists fields : list (string * json F),
    _parse_json json_loads text = Ok (JDict fields)
    /\ (fst out = Ok (JDict fields)
        \/ (out = (Raise TypeError, self)
            /\ exists v : json F,
                 lookup "questions" fields = Some v
                 /\ iterate v = Raise TypeError)).
Proof.
  intros Hdec Hb Hc out. subst out.
  destruct (parse_json_returns json_loads text) as [r Hr].
  assert (D : is_dict r).
  { revert Hr. rewrite parse_json_cases.
    assert (Fb : Ok (fallback text) = Ok r -> is_dict r)
      by (intros E; inversion E; eexists; reflexivity).
    destruct (index_of "{" text) as [i|] eqn:Hi; [|exact Fb].
    destruct (rindex_of "}" text) as [j|]; [|exact Fb].
    destruct (i <? j)%nat; [|exact Fb].
    destruct (json_loads (between i j text)) as [w|e] eqn:Hw; [|exact Fb].
    intros E. inversion E; subst w.
    apply (Hdec (between i j text)); [|exact Hw].
    unfold between. rewrite substring_correct1 by lia.
    apply index_of_first in Hi. destruct Hi as [Hi _]. exact Hi. }
  destruct D as [fields ->]. exists fields. split; [exact Hr|].
  destruct (lookup "questions" fields) as [v|] eqn:Hq.
  - destruct (iterate v) as [items|e] eqn:Hi.
    + left.
      rewrite (generate_questions_run json_loads chat content num qtype
                 difficulty prompt text self (JDict fields) v items Hb Hc Hr);
        [reflexivity | simpl; rewrite Hq; reflexivity | exact Hi].
    + right.
      assert (e = TypeError) by (destruct v; simpl in Hi; congruence).
      subst e. split; [|exists v; auto].
      apply (generate_questions_stops content num qtype difficulty prompt
               text self (JDict fields) v TypeError Hb Hc Hr); [|exact Hi].
      simpl. rewrite Hq. reflexivity.
  - left.
    rewrite (generate_questions_run json_loads chat content num qtype
               difficulty prompt text self (JDict fields) (JList []) [] Hb Hc
               Hr);
      [reflexivity | simpl; rewrite Hq; reflexivity | reflexivity].
Qed.

(** X4.  An exception of the chat call is not caught by any of the five
    methods: the call raises that same exception and leaves the object as
    it was. *)
Theorem chat_failure_reaches_the_caller
  (content qtype difficulty topic bloom_level : string)
  (question student_answer correct_answer : string) (topics : list string)
  (num duration num_cards : Z) (self : ExamQuestionGenerator F) (e : exn) :
  (forall prompt : string,
      generate_questions_prompt content num qtype difficulty = Ok prompt ->
      chat (model self) prompt = Raise e ->
      generate_questions json_loads chat content num qtype difficulty self
        = (Raise e, self))
  /\ (chat (model self) (generate_by_bloom_prompt topic bloom_level) = Raise e ->
      generate_by_bloom json_loads chat topic bloom_level self
        = (Raise e, self))
  /\ (forall prompt : string,
      create_practice_exam_prompt topics duration = Ok prompt ->
      chat (model self) prompt = Raise e ->
      create_practice_exam json_loads chat topics duration self
        = (Raise e, self))
  /\ (forall prompt : string,
      generate_flashcards_prompt content num_cards = Ok prompt ->
      chat (model self) prompt = Raise e ->
      generate_flashcards json_loads chat content num_cards self
        = (Raise e, self))
  /\ (chat (model self)
        (check_answer_prompt question student_answer correct_answer) = Raise e ->
      check_answer json_loads chat question student_answer correct_answer self
        = (Raise e, self)).
Proof.
  unfold generate_questions, generate_by_bloom, create_practice_exam,
    generate_flashcards, check_answer.
  repeat split; intros;
    repeat match goal with
           | H : _ = Ok _ |- _ => rewrite H, then_eval_ok; clear H
           end;
    unfold then_, ask;
    match goal with
    | H : _ = Raise _ |- _ => rewrite H
    end; reflexivity.
Qed.

(** X5.  Whatever text the chat call returns, [generate_by_bloom],
    [generate_flashcards] and [check_answer] do not raise: each returns
    what the extractor makes of the text and leaves the object as it
    was. *)
Theorem reading_methods_return_the_extraction
  (topic bloom_level content question student_answer correct_answer : string)
  (num_cards : Z) (text : string) (self : ExamQuestionGenerator F) :
  exists result : json F,
    _parse_json json_loads text = Ok result
    /\ (chat (model self) (generate_by_bloom_prompt topic bloom_level) = Ok text ->
        generate_by_bloom json_loads chat topic bloom_level self
          = (Ok result, self))
    /\ (forall prompt : string,
        generate_flashcards_prompt content num_cards = Ok prompt ->
        chat (model self) prompt = Ok text ->
        generate_flashcards json_loads chat content num_cards self
          = (Ok result, self))
    /\ (chat (model self)
          (check_answer_prompt question student_answer correct_answer)
          = Ok text ->
        check_answer json_loads chat question student_answer correct_answer
          self = (Ok result, self)).
Proof.
  destruct (parse_json_returns json_loads text) as [result Hr].
  exists result. split; [exact Hr|].
  unfold generate_by_bloom, generate_flashcards, check_answer.
  repeat split.
  - intros H. unfold then_, ask, eval. rewrite H, Hr. reflexivity.
  - intros prompt Hb H. rewrite Hb, then_eval_ok.
    unfold then_, ask, eval. rewrite H, Hr. reflexivity.
  - intros H. unfold then_, ask, eval. rewrite H, Hr. reflexivity.
Qed.

(** X6.  A reply from which nothing can be extracted is still recorded:
    [create_practice_exam] returns the fallback object and adds it to the
    quiz history, and [generate_questions] returns the fallback object and
    leaves the question bank as it was. *)
Theorem unextractable_reply_is_recorded
  (content qtype difficulty : string) (topics : list string)
  (num duration : Z) (text : string) (self : ExamQuestionGenerator F) :
  (forall v : json F, ~ extractable json_loads text v) ->
  (forall prompt : string,
      create_practice_exam_prompt topics duration = Ok prompt ->
      chat (model self) prompt = Ok text ->
      let out := create_practice_exam json_loads chat topics duration self in
      fst out = Ok (JDict [("raw_response", JStr text)])
      /\ quiz_history (snd out)
         = (quiz_history self ++ [JDict [("raw_response", JStr text)]])%list
      /\ question_bank (snd out) = question_bank self)
  /\ (forall prompt : string,
      generate_questions_prompt content num qtype difficulty = Ok prompt ->
      chat (model self) prompt = Ok text ->
      generate_questions json_loads chat content num qtype difficulty self
        = (Ok (JDict [("raw_response", JStr text)]), self)).
Proof.
  intros Hno. apply parse_json_fallback in Hno. split.
  - intros prompt Hb Hc out. subst out.
    unfold create_practice_exam. rewrite Hb, then_eval_ok.
    unfold then_, ask, eval, append_quiz_history, ret.
    rewrite Hc, Hno. simpl. auto.
  - intros prompt Hb Hc.
    rewrite (generate_questions_run json_loads chat content num qtype
               difficulty prompt text self (fallback text) (JList []) []
               Hb Hc Hno);
      [|reflexivity | reflexivity].
    rewrite with_questions_nil. reflexivity.
Qed.

End MoreMethodFacts.

(** ** Passes of the menu loop *)

Lemma last_five_app {A : Type} (front five : list A) :
  List.length five = 5%nat -> last_five (front ++ five) = five.
Proof.
  intros H. unfold last_five. rewrite length_app, H.
  replace (List.length front + 5 - 5)%nat with (List.length front + 0)%nat
    by lia.
  rewrite skipn_app, Nat.add_0_r, skipn_all.
  replace (List.length front - List.length front)%nat with 0%nat by lia.
  reflexivity.
Qed.

Lemma last_five_last {A : Type} (l : list A) (x : A) :
  exists front : list A, last_five (l ++ [x]) = (front ++ [x])%list.
Proof.
  unfold last_five. rewrite length_app. simpl.
  exists (skipn (List.length l + 1 - 5) l).
  rewrite skipn_app.
  replace (List.length l + 1 - 5 - List.length l)%nat with 0%nat by lia.
  reflexivity.
Qed.

Lemma chars_last {F : Type} (c : ascii) (s : string) :
  exists (front : list (json F)) (d : ascii),
    chars (String c s) = (front ++ [JStr (chr d)])%list.
Proof.
  revert c. induction s as [|a s IH]; intros c.
  - exists [], c. reflexivity.
  - destruct (IH a) as (front & d & E).
    exists (JStr (chr c) :: front), d.
    change (chars (String c (String a s)))
      with (JStr (chr c) :: @chars F (String a s)).
    rewrite E. reflexivity.
Qed.

Section MoreSessionFacts.

Context {F : Type}.

Variable json_loads : string -> result (json F).
Variable console : display F -> result unit.

(** The "View Bank" loop gets through entries that are all viewable when
    the console shows each of them. *)
Lemma print_entries_viewable (entries : list (json F)) :
  working console -> forallb viewable entries = true ->
  forall i : nat, print_entries console i entries = Ok tt.
Proof.
  intros Hw. induction entries as [|q entries IH]; intros Hv i; simpl.
  - reflexivity.
  - simpl in Hv. apply andb_prop in Hv. destruct Hv as [Hq Hrest].
    destruct q as [| | | | |items|fields]; try discriminate.
    unfold get. simpl in Hq.
    destruct (lookup "question" fields) as [[| | | | |its|fs]|];
      try discriminate; simpl; rewrite Hw; simpl; apply IH; exact Hrest.
Qed.

(** The "View Bank" loop raises when it meets an entry that is not
    viewable, if not before. *)
Lemma print_entries_not_viewable (entries : list (json F)) :
  existsb (fun q => negb (viewable q)) entries = true ->
  forall i : nat, exists e : exn, print_entries console i entries = Raise e.
Proof.
  induction entries as [|q entries IH]; intros Hx i; simpl in *.
  - discriminate.
  - destruct (viewable q) eqn:Hq; simpl in Hx.
    + destruct (get q "question" (JStr "N/A")) as [text|e]; simpl; [|eauto].
      destruct (head_slice 60 text) as [shown|e]; simpl; [|eauto].
      destruct (console (BankEntry i shown)) as [[]|e]; simpl; [|eauto].
      apply IH. exact Hx.
    + clear IH Hx. unfold viewable in Hq.
      destruct q as [| | | | |items|fields]; simpl; eauto.
      destruct (lookup "question" fields) as [[| | | | |its|fs]|];
        try discriminate; simpl; eauto.
Qed.

(** The "View Bank" call raises on a bank with an entry among its last
    five that is not viewable. *)
Lemma view_bank_raises_on_odd_entry_aux (self : ExamQuestionGenerator F) :
  existsb (fun q => negb (viewable q)) (last_five (question_bank self)) = true ->
  exists e : exn, view_bank console self = (Raise e, self).
Proof.
  intros Hx. unfold view_bank, then_, this, eval.
  destruct (question_bank self) as [|q l] eqn:Hb.
  - discriminate.
  - destruct (print_entries_not_viewable _ Hx 1%nat) as [e He].
    exists e. rewrite He. reflexivity.
Qed.

(** X13.  With a console that shows what it is asked to, the "View Bank"
    pass goes through and the loop continues, with the object unchanged,
    when each of the last five entries of the bank is a dict whose
    [question] is missing, a string or a list; an empty bank is such a
    case. *)
Theorem view_bank_goes_through (t : turn) (self : ExamQuestionGenerator F) :
  choice t = "6" ->
  working console ->
  forallb viewable (last_five (question_bank self)) = true ->
  body json_loads console t self = (Ok Continue, self).
Proof.
  intros Hc Hw Hv. unfold body, view_bank, then_, eval, this, ret.
  rewrite Hc. cbn [String.eqb Ascii.eqb Bool.eqb].
  rewrite !Hw.
  destruct (question_bank self) as [|q l] eqn:Hb.
  - reflexivity.
  - rewrite print_entries_viewable by assumption. reflexivity.
Qed.

(** X14.  Whatever the console does, the "View Bank" loop raises, and
    leaves the object as it was, when one of the last five entries of the
    bank is not a dict, or is a dict whose [question] is neither a string
    nor a list. *)
Theorem view_bank_raises_on_odd_entry (self : ExamQuestionGenerator F) :
  existsb (fun q => negb (viewable q)) (last_five (question_bank self)) = true ->
  exists e : exn, view_bank console self = (Raise e, self).
Proof. exact (view_bank_raises_on_odd_entry_aux self). Qed.

(** X16.  The "View Bank" loop looks at the last five entries only: on a
    bank of five entries with any number of older entries before them it
    ends as it does on those five entries alone. *)
Theorem view_bank_reads_last_five
  (self older : ExamQuestionGenerator F) (front : list (json F)) :
  List.length (question_bank self) = 5%nat ->
  question_bank older = (front ++ question_bank self)%list ->
  fst (view_bank console older) = fst (view_bank console self).
Proof.
  intros H5 Ho. unfold view_bank, then_, this, eval. simpl.
  rewrite Ho, last_five_app by exact H5.
  replace (last_five (question_bank self)) with (question_bank self)
    by (symmetry; apply (last_five_app []); exact H5).
  destruct (question_bank self) as [|q l]; [discriminate|].
  destruct (front ++ q :: l)%list eqn:E; [|reflexivity].
  destruct front; discriminate.
Qed.

(** X15.  Once [generate_questions] has added the characters of a
    non-empty string to the bank, the "View Bank" loop raises: a character
    is a string, and a string has no [get]. *)
Theorem view_bank_raises_after_string_questions
  (chat : string -> string -> result string)
  (content : string) (num : Z) (qtype difficulty prompt text : string)
  (c : ascii) (s : string)
  (self : ExamQuestionGenerator F) (fields : list (string * json F)) :
  generate_questions_prompt content num qtype difficulty = Ok prompt ->
  chat (model self) prompt = Ok text ->
  _parse_json json_loads text = Ok (JDict fields) ->
  lookup "questions" fields = Some (JStr (String c s)) ->
  let after :=
    snd (generate_questions json_loads chat content num qtype difficulty self)
  in
  exists e : exn, view_bank console after = (Raise e, after).
Proof.
  intros Hb Hc Hp Hq after. subst after.
  destruct (@chars_last F c s) as (front & d & E).
  rewrite (generate_questions_run json_loads chat content num qtype difficulty
             prompt text self (JDict fields) (JStr (String c s))
             (front ++ [JStr (chr d)]) Hb Hc Hp);
    [|simpl; rewrite Hq; reflexivity
     |change (Ok (chars (String c s)) = Ok (front ++ [@JStr F (chr d)])%list);
      rewrite E; reflexivity].
  cbn [snd].
  apply view_bank_raises_on_odd_entry_aux.
  unfold with_questions. cbn [question_bank].
  rewrite app_assoc.
  destruct (last_five_last (question_bank self ++ front) (@JStr F (chr d)))
    as [front' ->].
  rewrite existsb_app. simpl. apply orb_true_r.
Qed.

End MoreSessionFacts.

(** ** What a pass and a session change *)

Section PassFacts.

Context {F : Type}.

Variable json_loads : string -> result (json F).
Variable console : display F -> result unit.

(** What one pass through the loop body can change of the object. *)
Lemma body_effect (t : turn) (self : ExamQuestionGenerator F) :
  model (snd (body json_loads console t self)) = model self
  /\ (is_choice1 t = false ->
      question_bank (snd (body json_loads console t self))
        = question_bank self)
  /\ (is_choice3 t = false ->
      quiz_history (snd (body json_loads console t self))
        = quiz_history self)
  /\ (List.length (quiz_history (snd (body json_loads console t self)))
      <= List.length (quiz_history self)
         + (if is_choice3 t then 1 else 0))%nat.
Proof.
  unfold is_choice1, is_choice3, body, selected, view_bank,
    generate_questions, generate_by_bloom,
    create_practice_exam, generate_flashcards, check_answer,
    extend_question_bank, append_quiz_history, ask, then_, eval, this, ret.
  destruct (console Menu);
    [|simpl; repeat split; auto;
      destruct (String.eqb (choice t) "3"); lia].
  destruct (console (BankCount (List.length (question_bank self))));
    [|simpl; repeat split; auto;
      destruct (String.eqb (choice t) "3"); lia].
  repeat match goal with
         | |- context [match ?x with _ => _ end] =>
             lazymatch x with
             | context [match _ with _ => _ end] => fail
             | _ => destruct x eqn:?; cbn [fst snd model question_bank
                                           quiz_history]
             end
         end;
    repeat split; intros; try discriminate; auto; try congruence;
    rewrite ?length_app; cbn [List.length]; lia.
Qed.

(** What a run of the loop can change of the object. *)
Lemma loop_effect (turns : list turn) :
  forall self : ExamQuestionGenerator F,
    model (snd (loop json_loads console turns self)) = model self
    /\ (existsb is_choice1 turns = false ->
        question_bank (snd (loop json_loads console turns self))
          = question_bank self)
    /\ (List.length (quiz_history (snd (loop json_loads console turns self)))
        <= List.length (quiz_history self)
           + List.length (filter is_choice3 turns))%nat.
Proof.
  induction turns as [|t turns IH]; intros self.
  - simpl. repeat split; auto. lia.
  - destruct (body_effect t self) as (Bm & Bb & _ & Bh).
    cbn [loop]. unfold then_.
    destruct (body json_loads console t self) as [[[|]|e] self1];
      cbn [snd] in *; cbn [existsb filter].
    + destruct (IH self1) as (Lm & Lb & Lh).
      split; [congruence|]. split.
      * intros Hx. apply orb_false_elim in Hx. destruct Hx as [H1 H2].
        rewrite (Lb H2). apply Bb. exact H1.
      * destruct (is_choice3 t); simpl; lia.
    + split; [exact Bm|]. split.
      * intros Hx. apply orb_false_elim in Hx. destruct Hx as [H1 _].
        apply Bb. exact H1.
      * destruct (is_choice3 t); simpl; lia.
    + split; [exact Bm|]. split.
      * intros Hx. apply orb_false_elim in Hx. destruct Hx as [H1 _].
        apply Bb. exact H1.
      * destruct (is_choice3 t); simpl; lia.
Qed.

(** X8.  One pass through the loop body changes the question bank only
    when the choice is 1, changes the quiz history only when the choice is
    3, and then adds at most one entry to it. *)
Theorem pass_changes_one_list (t : turn) (self : ExamQuestionGenerator F) :
  (is_choice1 t = false ->
   question_bank (snd (body json_loads console t self)) = question_bank self)
  /\ (is_choice3 t = false ->
      quiz_history (snd (body json_loads console t self)) = quiz_history self)
  /\ (List.length (quiz_history (snd (body json_loads console t self)))
      <= S (List.length (quiz_history self)))%nat.
Proof.
  destruct (body_effect t self) as (_ & Hb & Hh & Hl).
  split; [exact Hb|]. split; [exact Hh|].
  destruct (is_choice3 t); lia.
Qed.

(** X9.  A session starts with both lists empty, so at any point the quiz
    history has at most as many entries as choices 3 were made, and the
    question bank is empty as long as choice 1 was not made. *)
Theorem session_lists_are_bounded (turns : list turn) :
  (List.length (quiz_history (snd (main json_loads console turns)))
   <= List.length (filter is_choice3 turns))%nat
  /\ (existsb is_choice1 turns = false ->
      question_bank (snd (main json_loads console turns)) = []).
Proof.
  unfold main, then_, eval.
  destruct (console Banner); cbn [snd].
  - destruct (loop_effect turns (__init__ "llama3.2")) as (_ & Hb & Hh).
    split; [exact Hh | exact Hb].
  - simpl. split; [lia | reflexivity].
Qed.

(** X11.  Once a pass has ended the loop, by the exit choice or by an
    exception, what is typed after it is never run: the session ends as it
    ended then, with the object as it was then. *)
Theorem nothing_runs_after_the_end
  (before after : list turn) (self : ExamQuestionGenerator F) :
  fst (loop json_loads console before self) <> Ok Continue ->
  loop json_loads console (before ++ after) self
    = loop json_loads console before self.
Proof.
  intros H. rewrite loop_app.
  destruct (loop json_loads console before self) as [[[|]|e] self'];
    [contradiction H | |]; reflexivity.
Qed.

End PassFacts.


(** ** The chat service and the choice *)

Section ChoiceFacts.

Context {F : Type}.

Variable json_loads : string -> result (json F).
Variable console : display F -> result unit.

(** A method that asks the chat service once depends on the service only
    through its answers for the model of the object. *)
Lemma then_ask_ext {B : Type} (chat chat' : string -> string -> result string)
  (prompt : string) (k : string -> method F B)
  (self : ExamQuestionGenerator F) :
  (forall p : string, chat (model self) p = chat' (model self) p) ->
  then_ (ask chat prompt) k self = then_ (ask chat' prompt) k self.
Proof. intros H. unfold then_, ask. rewrite H. reflexivity. Qed.

Lemma then_built_ask_ext {B : Type}
  (chat chat' : string -> string -> result string)
  (built : result string) (k : string -> method F B)
  (self : ExamQuestionGenerator F) :
  (forall p : string, chat (model self) p = chat' (model self) p) ->
  then_ (eval built) (fun prompt => then_ (ask chat prompt) k) self
  = then_ (eval built) (fun prompt => then_ (ask chat' prompt) k) self.
Proof.
  intros H. destruct built as [prompt|e]; [|reflexivity].
  rewrite !then_eval_ok. apply then_ask_ext. exact H.
Qed.

Lemma then_ext {A B : Type} (m m' : method F A) (k : A -> method F B)
  (self : ExamQuestionGenerator F) :
  m self = m' self -> then_ m k self = then_ m' k self.
Proof. intros H. unfold then_. rewrite H. reflexivity. Qed.

(** The branch of a pass is the same for two turns that differ only in
    what the chat service answers for other models than that of the
    object. *)
Lemma selected_same_for_model (t t' : turn) (self : ExamQuestionGenerator F) :
  same_for_model (model self) t t' ->
  selected json_loads console t self = selected json_loads console t' self.
Proof.
  intros (Hc & Hp & Ha & Hi & Hs).
  unfold selected. rewrite <- Hc, <- Hp, <- Ha, <- Hi.
  repeat match goal with
         | |- context [if ?b then _ else _] => destruct b
         end;
    try reflexivity;
    try (destruct (console Notice) as [[]|e];
         [rewrite !then_eval_ok | reflexivity]);
    apply then_ext;
    unfold generate_questions, generate_by_bloom, create_practice_exam,
      generate_flashcards, check_answer;
    first [apply then_built_ask_ext; exact Hs | apply then_ask_ext; exact Hs].
Qed.

Lemma then_eval_ext {A B : Type} (r : result A) (k k' : A -> method F B)
  (self : ExamQuestionGenerator F) :
  (forall a : A, k a self = k' a self) ->
  then_ (eval r) k self = then_ (eval r) k' self.
Proof. intros H. destruct r as [a|e]; [apply H | reflexivity]. Qed.

Lemma body_same_for_model (t t' : turn) (self : ExamQuestionGenerator F) :
  same_for_model (model self) t t' ->
  body json_loads console t self = body json_loads console t' self.
Proof.
  intros H. pose proof (selected_same_for_model t t' self H) as Hsel.
  destruct H as (Hc & _).
  unfold body. rewrite <- Hc.
  apply then_eval_ext. intros _.
  change (then_ this ?k self) with (k self self). cbv beta.
  apply then_eval_ext. intros _.
  destruct (String.eqb (choice t) "0"); [reflexivity|].
  destruct (String.eqb (choice t) "6"); [reflexivity|].
  apply then_ext. exact Hsel.
Qed.

Lemma loop_same_for_model (m : string) (turns turns' : list turn) :
  Forall2 (same_for_model m) turns turns' ->
  forall self : ExamQuestionGenerator F,
    model self = m ->
    loop json_loads console turns self = loop json_loads console turns' self.
Proof.
  induction 1 as [|t t' turns turns' Ht _ IH]; intros self Hm.
  - reflexivity.
  - cbn [loop]. unfold then_.
    rewrite <- (body_same_for_model t t' self) by (rewrite Hm; exact Ht).
    destruct (body_effect json_loads console t self) as (Bm & _).
    destruct (body json_loads console t self) as [[[|]|e] self1];
      try reflexivity.
    apply IH. cbn [snd] in Bm. congruence.
Qed.

(** X10.  No pass of the loop changes the model name, and every chat call
    of a session names the model [llama3.2] that [main] created the
    generator with: a session ends the same, with the same object, if the
    chat service answers differently for any other model. *)
Theorem session_keeps_model (turns : list turn) :
  model (snd (main json_loads console turns)) = "llama3.2"
  /\ forall turns' : list turn,
       Forall2 (same_for_model "llama3.2") turns turns' ->
       main json_loads console turns = main json_loads console turns'.
Proof.
  split.
  - unfold main, then_, eval.
    destruct (console Banner); cbn [snd]; [|reflexivity].
    destruct (loop_effect json_loads console turns (__init__ "llama3.2"))
      as (Hm & _).
    exact Hm.
  - intros turns' H. unfold main.
    destruct (console Banner) as [[]|e]; [|reflexivity].
    rewrite !then_eval_ok.
    apply (loop_same_for_model "llama3.2"); [exact H | reflexivity].
Qed.


End ChoiceFacts.

(** ** What is typed at the menu *)










Section TypedFacts.

Context {F : Type}.

Variable json_loads : string -> result (json F).
Variable console : display F -> result unit.



End TypedFacts.

(** X18.  Pasted content ends at the first line that, stripped of the
    blanks around it, reads [EOF]: the lines read are exactly those before
    it, none of them reads [EOF] when stripped, and what follows it stays
    unread.  When no typed line reads [EOF], the loop runs out of input and
    [EOFError] is raised. *)
Theorem read_content_stops_at_sentinel (stdin : list string) :
  match read_content stdin with
  | (Ok lines, unread) =>
      exists sentinel : string,
        stdin = (lines ++ sentinel :: unread)%list
        /\ strip sentinel = "EOF"
        /\ Forall (fun line => strip line <> "EOF") lines
  | (Raise e, unread) =>
      e = Exception "EOFError" /\ unread = []
      /\ Forall (fun line => strip line <> "EOF") stdin
  end.
Proof.
  induction stdin as [|line rest IH]; simpl.
  - auto.
  - destruct (String.eqb_spec (strip line) "EOF") as [E|E].
    + exists line. auto.
    + destruct (read_content rest) as [[lines|e] unread].
      * destruct IH as (sentinel & -> & Hs & Hl).
        exists sentinel. auto.
      * destruct IH as (-> & -> & Hl). auto.
Qed.

(** ** More on the bank *)

Lemma substring_prefix (s : string) :
  forall n : nat,
    exists tail : string,
      s = substring 0 n s ++ tail
      /\ String.length (substring 0 n s) = Nat.min n (String.length s).
Proof.
  induction s as [|a s IH]; intros n.
  - exists EmptyString. destruct n; auto.
  - destruct n as [|n]; simpl.
    + exists (String a s). auto.
    + destruct (IH n) as (tail & E & L).
      exists tail. rewrite <- E, L. auto.
Qed.

Lemma slice_head (s : string) (n : nat) :
  slice s 0 (Z.of_nat n) = substring 0 (Nat.min n (String.length s)) s.
Proof.
  unfold slice, clamp, len.
  destruct (Z.ltb_spec 0 0); [lia|].
  destruct (Z.ltb_spec (Z.of_nat n) 0); [lia|].
  f_equal; lia.
Qed.

Section BankFacts.

Context {F : Type}.

Variable json_loads : string -> result (json F).
Variable console : display F -> result unit.

Local Open Scope py_scope.

(** X19.  For an entry that is a dict, the "View Bank" loop shows, under
    the number of the entry, the first sixty characters of the string under
    [question], or all of it when it is shorter, and the text [N/A] when
    the dict has no [question]; it then goes on with the next entry and the
    next number. *)
Theorem view_bank_shows_sixty_characters
  (i : nat) (fields : list (string * json F)) (rest : list (json F)) :
  (forall s : string,
      lookup "question" fields = Some (JStr s) ->
      exists shown tail : string,
        s = (shown ++ tail)%string
        /\ String.length shown = Nat.min 60 (String.length s)
        /\ print_entries console i (JDict fields :: rest)
           = (_ <- console (BankEntry i (JStr shown)) ;;
              print_entries console (S i) rest))
  /\ (lookup "question" fields = None ->
      print_entries console i (JDict fields :: rest)
      = (_ <- console (BankEntry i (JStr "N/A")) ;;
         print_entries console (S i) rest)).
Proof.
  split.
  - intros s Hq.
    destruct (substring_prefix s (Nat.min 60 (String.length s)))
      as (tail & E & L).
    exists (substring 0 (Nat.min 60 (String.length s)) s), tail.
    split; [exact E|]. split; [rewrite L; lia|].
    cbn [print_entries get bind]. rewrite Hq.
    cbn [head_slice bind].
    rewrite (slice_head s 60). reflexivity.
  - intros Hq. cbn [print_entries get bind]. rewrite Hq. reflexivity.
Qed.

(** X20.  The bank is not deduplicated: two calls of [generate_questions]
    that receive the same reply, holding a list of questions, leave that
    list in the bank twice, one copy after the other. *)
Theorem generate_questions_keeps_duplicates
  (chat : string -> string -> result string)
  (content : string) (num : Z) (qtype difficulty prompt text : string)
  (self : ExamQuestionGenerator F) (fields : list (string * json F))
  (qs : list (json F)) :
  generate_questions_prompt content num qtype difficulty = Ok prompt ->
  chat (model self) prompt = Ok text ->
  _parse_json json_loads text = Ok (JDict fields) ->
  lookup "questions" fields = Some (JList qs) ->
  let once :=
    snd (generate_questions json_loads chat content num qtype difficulty self)
  in
  let twice :=
    snd (generate_questions json_loads chat content num qtype difficulty once)
  in
  question_bank twice = (question_bank self ++ qs ++ qs)%list.
Proof.
  intros Hb Hc Hp Hq once twice. subst twice once.
  rewrite (generate_questions_run json_loads chat content num qtype difficulty
             prompt text self (JDict fields) (JList qs) qs Hb Hc Hp);
    [|simpl; rewrite Hq; reflexivity | reflexivity].
  cbn [snd].
  rewrite (generate_questions_run json_loads chat content num qtype difficulty
             prompt text (with_questions self qs) (JDict fields) (JList qs)
             qs);
    [|exact Hb | exact Hc | exact Hp | simpl; rewrite Hq; reflexivity
     | reflexivity].
  simpl. rewrite app_assoc. reflexivity.
Qed.

End BankFacts.

(** ** The further properties on sample data *)

(** X1 on a reply whose [questions] is the number 5. *)
Lemma generate_questions_rejects_scalars_sample :
  _parse_json sample_loads (lit "{`questions`: 5}")
  = Ok (JDict [("questions", JInt 5)])
  /\ generate_questions sample_loads (fun _ _ => Ok (lit "{`questions`: 5}"))
       "Sets and maps" 2 "Mixed" "easy" (__init__ "llama3.2")
     = (Raise TypeError, __init__ "llama3.2").
Proof.
  assert (E : _parse_json sample_loads (lit "{`questions`: 5}")
              = Ok (JDict [("questions", JInt 5)]))
    by (vm_compute; reflexivity).
  split; [exact E|].
  exact (generate_questions_rejects_scalars sample_loads
           (fun _ _ => Ok (lit "{`questions`: 5}"))
           "Sets and maps" 2 "Mixed" "easy" _ (lit "{`questions`: 5}")
           (__init__ "llama3.2") _ (JInt 5) eq_refl eq_refl E eq_refl I).
Defined.

(** X2 on a reply whose [questions] is a dict with the keys [a] and [b]. *)
Lemma generate_questions_adds_keys_sample :
  _parse_json sample_loads (lit "{`questions`: {`a`: 1, `b`: 2}}")
  = Ok (JDict [("questions", JDict [("a", JInt 1); ("b", JInt 2)])])
  /\ question_bank
       (snd (generate_questions sample_loads
               (fun _ _ => Ok (lit "{`questions`: {`a`: 1, `b`: 2}}"))
               "Sets and maps" 2 "Mixed" "easy" (__init__ "llama3.2")))
     = [JStr "a"; JStr "b"].
Proof.
  assert (E : _parse_json sample_loads (lit "{`questions`: {`a`: 1, `b`: 2}}")
              = Ok (JDict
                      [("questions", JDict [("a", JInt 1); ("b", JInt 2)])]))
    by (vm_compute; reflexivity).
  split; [exact E|].
  destruct (generate_questions_adds_keys sample_loads
              (fun _ _ => Ok (lit "{`questions`: {`a`: 1, `b`: 2}}"))
              "Sets and maps" 2 "Mixed" "easy" _
              (lit "{`questions`: {`a`: 1, `b`: 2}}")
              (__init__ "llama3.2") _ _ eq_refl eq_refl E eq_refl)
    as (_ & Hbank & _).
  exact Hbank.
Defined.

(** X3 on the reference decoder and the reply with two questions. *)
Lemma generate_questions_fails_only_on_extend_sample :
  object_decoder sample_loads
  /\ exists fields : list (string * json string),
       _parse_json sample_loads two_questions_reply = Ok (JDict fields)
       /\ (fst (generate_questions sample_loads
                  (fun _ _ => Ok two_questions_reply)
                  "Sets and maps" 2 "Mixed" "easy" (__init__ "llama3.2"))
           = Ok (JDict fields)
           \/ (generate_questions sample_loads
                 (fun _ _ => Ok two_questions_reply)
                 "Sets and maps" 2 "Mixed" "easy" (__init__ "llama3.2")
               = (Raise TypeError, __init__ "llama3.2")
               /\ exists v : json string,
                    lookup "questions" fields = Some v
                    /\ iterate v = Raise TypeError)).
Proof.
  assert (D : object_decoder sample_loads) by apply loads_object_decoder.
  split; [exact D|].
  exact (generate_questions_fails_only_on_extend sample_loads
           (fun _ _ => Ok two_questions_reply)
           "Sets and maps" 2 "Mixed" "easy" _ two_questions_reply
           (__init__ "llama3.2") D eq_refl eq_refl).
Defined.

(** X6 on a reply without braces. *)
Lemma unextractable_reply_is_recorded_sample :
  (forall v : json string,
      ~ extractable sample_loads "I cannot answer that." v)
  /\ quiz_history
       (snd (create_practice_exam sample_loads
               (fun _ _ => Ok "I cannot answer that.")
               ["sets"] 60 (__init__ "llama3.2")))
     = [JDict [("raw_response", JStr "I cannot answer that.")]]
  /\ generate_questions sample_loads (fun _ _ => Ok "I cannot answer that.")
       "Sets and maps" 2 "Mixed" "easy" (__init__ "llama3.2")
     = (Ok (JDict [("raw_response", JStr "I cannot answer that.")]),
        __init__ "llama3.2").
Proof.
  assert (N : forall v : json string,
             ~ extractable sample_loads "I cannot answer that." v)
    by (apply no_brace_not_extractable; reflexivity).
  split; [exact N|].
  destruct (unextractable_reply_is_recorded sample_loads
              (fun _ _ => Ok "I cannot answer that.")
              "Sets and maps" "Mixed" "easy" ["sets"] 2 60
              "I cannot answer that." (__init__ "llama3.2") N)
    as (Hexam & Hquestions).
  split.
  - destruct (Hexam _ eq_refl eq_refl) as (_ & Hh & _). exact Hh.
  - exact (Hquestions _ eq_refl eq_refl).
Defined.

(** X7 on an object with words before and after it. *)
Lemma parse_json_ignores_surrounding_text_sample :
  find "{" "noise " = -1
  /\ rfind "}" " trailing" = -1
  /\ _parse_json sample_loads
       ("noise " ++ ("{" ++ lit "`a`: 1" ++ "}") ++ " trailing")
     = Ok (JDict [("a", JInt 1)]).
Proof.
  split; [reflexivity|]. split; [reflexivity|].
  exact (parse_json_ignores_surrounding_text sample_loads
           "noise " (lit "`a`: 1") " trailing" eq_refl eq_refl).
Defined.

(** X11 on a session that exits and is followed by another choice. *)
Lemma nothing_runs_after_the_end_sample :
  fst (loop sample_loads quiet_console [sample_turn "0"]
         (__init__ "llama3.2"))
  <> Ok Continue
  /\ loop sample_loads quiet_console ([sample_turn "0"] ++ [sample_turn "6"])
       (__init__ "llama3.2")
     = loop sample_loads quiet_console [sample_turn "0"]
         (__init__ "llama3.2").
Proof.
  assert (H : fst (loop sample_loads quiet_console [sample_turn "0"]
                     (__init__ "llama3.2")) <> Ok Continue)
    by (vm_compute; discriminate).
  split; [exact H|].
  exact (nothing_runs_after_the_end sample_loads quiet_console
           [sample_turn "0"] [sample_turn "6"] (__init__ "llama3.2") H).
Defined.


(** X13 on a bank of two dicts, one with a question and one without. *)
Lemma view_bank_goes_through_sample :
  working quiet_console
  /\ body sample_loads quiet_console (sample_turn "6")
       {| model := "llama3.2";
          question_bank :=
            [JDict [("question", JStr "What is a set?")]; JDict []];
          quiz_history := [] |}
     = (Ok Continue,
        {| model := "llama3.2";
           question_bank :=
             [JDict [("question", JStr "What is a set?")]; JDict []];
           quiz_history := [] |}).
Proof.
  assert (W : working quiet_console) by (intros d; reflexivity).
  split; [exact W|].
  exact (view_bank_goes_through sample_loads quiet_console (sample_turn "6")
           {| model := "llama3.2";
              question_bank :=
                [JDict [("question", JStr "What is a set?")]; JDict []];
              quiz_history := [] |} eq_refl W eq_refl).
Defined.

(** X14 on a bank whose only entry is a string. *)
Lemma view_bank_raises_on_odd_entry_sample :
  exists e : exn,
    view_bank quiet_console
      {| model := "llama3.2"; question_bank := [JStr "a"];
         quiz_history := [] |}
    = (Raise e,
       {| model := "llama3.2"; question_bank := [JStr "a"];
          quiz_history := [] |}).
Proof.
  exact (view_bank_raises_on_odd_entry quiet_console
           {| model := "llama3.2"; question_bank := [JStr "a"];
              quiz_history := [] |} eq_refl).
Defined.

(** X15 on a new generator and the reply whose [questions] is [abc]. *)
Lemma view_bank_raises_after_string_questions_sample :
  _parse_json sample_loads string_questions_reply
  = Ok (JDict [("questions", JStr "abc")])
  /\ exists e : exn,
       view_bank quiet_console
         (snd (generate_questions sample_loads
                 (fun _ _ => Ok string_questions_reply)
                 "Sets and maps" 2 "Mixed" "easy" (__init__ "llama3.2")))
       = (Raise e,
          snd (generate_questions sample_loads
                 (fun _ _ => Ok string_questions_reply)
                 "Sets and maps" 2 "Mixed" "easy" (__init__ "llama3.2"))).
Proof.
  assert (E : _parse_json sample_loads string_questions_reply
              = Ok (JDict [("questions", JStr "abc")]))
    by (vm_compute; reflexivity).
  split; [exact E|].
  exact (view_bank_raises_after_string_questions sample_loads quiet_console
           (fun _ _ => Ok string_questions_reply)
           "Sets and maps" 2 "Mixed" "easy" _ string_questions_reply
           "a" "bc" (__init__ "llama3.2") _ eq_refl eq_refl E eq_refl).
Defined.

(** X16 on five dicts with a string before them: the string, which the
    loop could not show, is not looked at. *)
Lemma view_bank_reads_last_five_sample :
  fst (view_bank quiet_console
         {| model := "llama3.2";
            question_bank :=
              [JStr "a"; JDict []; JDict []; JDict []; JDict []; JDict []];
            quiz_history := [] |})
  = fst (view_bank quiet_console
           {| model := "llama3.2";
              question_bank := [JDict []; JDict []; JDict []; JDict []; JDict []];
              quiz_history := [] |}).
Proof.
  exact (view_bank_reads_last_five quiet_console
           {| model := "llama3.2";
              question_bank := [JDict []; JDict []; JDict []; JDict []; JDict []];
              quiz_history := [] |}
           {| model := "llama3.2";
              question_bank :=
                [JStr "a"; JDict []; JDict []; JDict []; JDict []; JDict []];
              quiz_history := [] |}
           [JStr "a"] eq_refl eq_refl).
Defined.

(** X20 on a new generator and the reply with two questions, received
    twice. *)
Lemma generate_questions_keeps_duplicates_sample :
  _parse_json sample_loads two_questions_reply
  = Ok (JDict
          [("topic", JStr "sets");
           ("questions",
            JList [JDict [("id", JInt 1)]; JDict [("id", JInt 2)]])])
  /\ question_bank
       (snd (generate_questions sample_loads (fun _ _ => Ok two_questions_reply)
               "Sets and maps" 2 "Mixed" "easy"
               (snd (generate_questions sample_loads
                       (fun _ _ => Ok two_questions_reply)
                       "Sets and maps" 2 "Mixed" "easy"
                       (__init__ "llama3.2")))))
     = [JDict [("id", JInt 1)]; JDict [("id", JInt 2)];
        JDict [("id", JInt 1)]; JDict [("id", JInt 2)]].
Proof.
  assert (E : _parse_json sample_loads two_questions_reply
              = Ok (JDict
                      [("topic", JStr "sets");
                       ("questions",
                        JList [JDict [("id", JInt 1)];
                               JDict [("id", JInt 2)]])]))
    by (vm_compute; reflexivity).
  split; [exact E|].
  exact (generate_questions_keeps_duplicates sample_loads
           (fun _ _ => Ok two_questions_reply)
           "Sets and maps" 2 "Mixed" "easy" _ two_questions_reply
           (__init__ "llama3.2") _ _ eq_refl eq_refl E eq_refl).
Defined.


(** X10 on a session of three passes, with a chat service that answers for
    every model and with one that knows [llama3.2] only. *)
Lemma session_keeps_model_sample :
  main sample_loads quiet_console
    [sample_turn "3"; sample_turn "1"; sample_turn "0"]
  = main sample_loads quiet_console
      [one_model_turn "3"; one_model_turn "1"; one_model_turn "0"].
Proof.
  apply (proj2 (session_keeps_model sample_loads quiet_console
                  [sample_turn "3"; sample_turn "1"; sample_turn "0"])).
  repeat constructor.
Defined.
